(** * sanic-macrobase: exception registry, body aggregation and dispatch

  A shallow embedding of [sanic_macrobase/exceptions.py] and
  [sanic_macrobase/endpoint.py].

  - Python dictionaries are insertion-ordered association lists
    ([PyDict]): iteration order is observable in
    [get_exception_handler].
  - The module-level registry [_exception_handlers] is threaded
    explicitly.
  - Coroutines of the endpoint run sequentially; they are functions of
    a small state-and-exception monad whose state carries the user
    visible world and a ghost log of the calls made by the dispatcher. *)

From stdpp Require Import base decidable option list strings pretty.
From Stdlib Require Import ZArith Ascii String.

Set Warnings "-register-all".

Open Scope Z_scope.
Open Scope string_scope.
Open Scope list_scope.

(** ** Python dictionaries *)

Module PyDict.
Section Dict.
Context {K V : Type} `{EqDecision K}.

(** Items in insertion order; keys are unique ([wf]). *)
Definition t := list (K * V).

Definition keys (d : t) : list K := map fst d.

Definition wf (d : t) : Prop := NoDup (keys d).

(** [d.get(k)], [d[k]] when the key is present. *)
Fixpoint get (k : K) (d : t) : option V :=
  match d with
  | [] => None
  | (k', v) :: rest => if decide (k = k') then Some v else get k rest
  end.

(** [k in d] *)
Definition contains (k : K) (d : t) : bool :=
  match get k d with Some _ => true | None => false end.

(** [d[k] = v]: an existing key keeps its position and takes the new
    value, a new key is appended. *)
Fixpoint set (k : K) (v : V) (d : t) : t :=
  match d with
  | [] => [(k, v)]
  | (k', v') :: rest =>
      if decide (k = k') then (k', v) :: rest else (k', v') :: set k v rest
  end.

(** [d.update(other)] *)
Definition update (d other : t) : t :=
  fold_left (fun acc kv => set (fst kv) (snd kv) acc) other d.

(** [len(d)] *)
Definition len (d : t) : nat := List.length d.

(** The keys of [l] that are not in [seen], each at its first occurrence:
    the order in which a dict that already has the keys [seen] receives
    new keys when [l] is assigned to it key by key. *)
Fixpoint first_occurrences (seen l : list K) : list K :=
  match l with
  | [] => []
  | k :: rest =>
      if decide (k ∈ seen) then first_occurrences seen rest
      else k :: first_occurrences (seen ++ [k]) rest
  end.
End Dict.
Arguments t : clear implicits.
End PyDict.

(** ** Python values that travel through request bodies and resolvers *)

Inductive pyval : Type :=
| PyNone
| PyInt (z : Z)
| PyStr (s : string)
| PyBytes (b : list ascii)
| PyList (xs : list pyval)
| PyTuple (xs : list pyval)
| PyDictV (items : list (string * pyval))
| PyFile (type : string) (body : list ascii) (name : string).

Definition pydict := PyDict.t string pyval.

(** ** Classes and exceptions *)

(** The class hierarchy of the running interpreter, as far as this
  package looks at it: [issubclass], and the classes the code names or
  raises implicitly. *)
Class PyClasses (Cls : Type) := {
  cls_eq_dec :: EqDecision Cls;
  issubclass : Cls -> Cls -> bool;
  issubclass_refl : forall c, issubclass c c = true;
  issubclass_trans : forall a b c,
    issubclass a b = true -> issubclass b c = true -> issubclass a c = true;
  Exception : Cls;
  SanicException : Cls;
  RoutingErrorException : Cls;
  ValueError : Cls;
  TypeError : Cls;
  AttributeError : Cls;
  KeyError : Cls;
  (* class RoutingErrorException(SanicException) *)
  RoutingErrorException_base : issubclass RoutingErrorException SanicException = true;
}.

(** An exception instance: its class, [str(exc)], and the [status_code]
  attribute when the instance has one. *)
Record PyException (Cls : Type) := mkException {
  exc_class : Cls;
  exc_str : string;
  exc_status_code : option pyval;
}.
Arguments mkException {Cls}.
Arguments exc_class {Cls}.
Arguments exc_str {Cls}.
Arguments exc_status_code {Cls}.

(** [RoutingErrorException(message)]: the constructor passes
    [status_code=500] to [SanicException.__init__]. *)
Definition new_RoutingErrorException {Cls : Type} `{PyClasses Cls}
    (message : string) : PyException Cls :=
  mkException RoutingErrorException message (Some (PyInt 500)).

(** [ExceptionTyping = Union[Exception, Type[Exception]]] *)
Inductive ExceptionTyping (Cls : Type) :=
| ExcInstance (e : PyException Cls)
| ExcType (c : Cls).
Arguments ExcInstance {Cls}.
Arguments ExcType {Cls}.

(** Outcome of running Python code: a value or a raised exception. *)
Inductive outcome (Cls A : Type) :=
| Ok (a : A)
| Raise (e : PyException Cls).
Arguments Ok {Cls A}.
Arguments Raise {Cls A}.

Section Exceptions.
Context {Cls : Type} `{PyClasses Cls}.
(** The type of resolver functions stored in the registry. *)
Context {Handler : Type}.

(** [isinstance(exception, key)]. A class object is an instance of its
    metaclass only, never of an exception class. *)
Definition isinstance (exception : ExceptionTyping Cls) (key : Cls) : bool :=
  match exception with
  | ExcInstance e => issubclass (exc_class e) key
  | ExcType _ => false
  end.

(** [_exception_handlers] *)
Definition registry := PyDict.t Cls Handler.

(** The decorator [register_exception_handler], applied to the classes
    [exceptions] and then to [func]: the registry after it has run. *)
Definition register_exception_handler
    (exceptions : list Cls) (func : Handler) (reg : registry) : registry :=
  fold_left (fun r exception => PyDict.set exception func r) exceptions reg.

(** Lines 27-30: [exception.__class__], or the exception itself when a
    class was passed. *)
Definition exc_cls_of (exception : ExceptionTyping Cls) : Cls :=
  match exception with
  | ExcInstance e => exc_class e
  | ExcType c => c
  end.

(** The [for key, handler in _exception_handlers.items()] loop, with
    the running value of [default]. *)
Fixpoint scan_handlers (exception : ExceptionTyping Cls) (exc_cls : Cls)
    (default : option Handler) (items : list (Cls * Handler)) : option Handler :=
  match items with
  | [] => default
  | (key, handler) :: rest =>
      if isinstance exception key then Some handler
      else
        let default' :=
          match default with
          | None => if issubclass exc_cls key then Some handler else None
          | Some _ => default
          end in
        scan_handlers exception exc_cls default' rest
  end.

Definition get_exception_handler
    (reg : registry) (exception : ExceptionTyping Cls) : option Handler :=
  let exc_cls := exc_cls_of exception in
  if PyDict.contains exc_cls reg then PyDict.get exc_cls reg
  else scan_handlers exception exc_cls None reg.

(** A history of registrations, oldest first: each is one use of the
    decorator, a tuple of classes and the decorated function. *)
Definition flatten_history (history : list (list Cls * Handler)) : list (Cls * Handler) :=
  List.concat (map (fun r => map (fun c => (c, snd r)) (fst r)) history).

(** The registry after the registrations of [history], in that order. *)
Definition replay (history : list (list Cls * Handler)) (reg : registry) : registry :=
  fold_left (fun r h => register_exception_handler (fst h) (snd h) r) history reg.

(** The resolver of the latest registration that names class [c]. *)
Definition most_recent (c : Cls) (history : list (list Cls * Handler)) : option Handler :=
  PyDict.get c (rev (flatten_history history)).

(** The resolver of the first entry, in iteration order, that the
    instance [e] matches. *)
Definition first_match (e : PyException Cls) (reg : registry) : option Handler :=
  snd <$> List.find (fun kv => isinstance (ExcInstance e) (fst kv)) reg.
End Exceptions.
Arguments registry : clear implicits.

(** ** Strings *)

Definition lower_ascii (c : ascii) : ascii :=
  let n := nat_of_ascii c in
  if ((65 <=? n) && (n <=? 90))%nat then ascii_of_nat (n + 32) else c.

(** [s.lower()] on ASCII text. *)
Fixpoint lower (s : string) : string :=
  match s with
  | EmptyString => EmptyString
  | String c rest => String (lower_ascii c) (lower rest)
  end.

(** [needle in haystack] *)
Definition str_in (needle haystack : string) : bool :=
  match String.index 0 needle haystack with Some _ => true | None => false end.

(** ** Requests and responses *)

(** Modelled from the spec: sanic's [Request] is not part of this
  repository; the fields are those of the RequestView of the data
  model, under the attribute names the code reads. [None] stands for an
  attribute that is [None]. *)
Module Request.
Record t := mk {
  method : string;
  content_type : string;
  match_info : option pydict;
  json : option pydict;
  args : option pydict;
  files : option pydict;
  form : option pydict;
  headers : pydict;
}.
End Request.

(** The values built by sanic's response constructors. *)
Inductive Response :=
| JsonResponse (body : pyval) (status : pyval) (headers : pydict)
| TextResponse (body : string) (status : pyval) (headers : pydict) (content_type : string)
| RawResponse (body : list ascii) (status : pyval) (headers : pydict) (content_type : string)
| FileResponse (filepath : string) (headers : pydict).

(** Calls made by the dispatcher, in the order they are made (ghost
  state). Hooks are numbered by their position in the list returned by
  [_get_before_methods] / [_get_after_methods]. *)
Inductive call :=
| CallBefore (i : nat) (request : Request.t) (body : pydict)
| CallVerb (func_name : string) (request : Request.t) (body : pydict)
| CallAfter (i : nat) (request : Request.t).

Definition is_after_call (c : call) : bool :=
  match c with CallAfter _ _ => true | _ => false end.

(** The dict built from the fields of a file item. *)
Definition file_dict (type : string) (body : list ascii) (name : string) : pyval :=
  PyDictV [("type", PyStr type); ("body", PyBytes body); ("name", PyStr name)].

(** [d] is the projection of the file item [item]. *)
Definition projected (item d : pyval) : Prop :=
  exists type body name, item = PyFile type body name /\ d = file_dict type body name.

(** The values of [request.files] that are lists hold file items only. *)
Definition lists_hold_files (request_files : pydict) : Prop :=
  forall key items,
    PyDict.get key request_files = Some (PyList items) ->
    Forall (fun item => exists type body name, item = PyFile type body name) items.

(** State of a dispatch: the world the user code acts on, and the log of
  calls. *)
Record state (W : Type) := mkState {
  world : W;
  calls : list call;
}.
Arguments mkState {W}.
Arguments world {W}.
Arguments calls {W}.

Section Endpoint.
Context {Cls : Type} `{PyClasses Cls}.
(** The world that hooks, verb handlers and resolvers read and write. *)
Context {W : Type}.
(** [macrobase_driver.logging]: the ambient request id. *)
Context (set_request_id : W -> W) (get_request_id : W -> pyval).
(** [HTTPStatus(code).phrase]; [None] when [code] is not a member. *)
Context (HTTPStatus_phrase : pyval -> option string).

Local Abbreviation exc := (PyException Cls).
Local Abbreviation result := (outcome Cls).

Definition raise_new {A} (cls : Cls) (msg : string) : result A :=
  Raise (mkException cls msg None).

Definition obind {A B} (m : result A) (f : A -> result B) : result B :=
  match m with
  | Ok a => f a
  | Raise e => Raise e
  end.

(** *** Body aggregation (pure code) *)

(** [d[key]] *)
Definition getitem (key : string) (d : pydict) : result pyval :=
  match PyDict.get key d with
  | Some v => Ok v
  | None => raise_new KeyError key
  end.

(** Lines 21-22: a list of length one gives way to its element. *)
Definition collapse_value (value : pyval) : pyval :=
  match value with
  | PyList [x] => x
  | _ => value
  end.

(** The [for key in params] loop of [params_from_dictparams]. *)
Fixpoint params_loop (params : pydict) (ks : list string) (args : pydict)
    : result pydict :=
  match ks with
  | [] => Ok args
  | key :: rest =>
      obind (getitem key params) (fun value =>
        params_loop params rest (PyDict.set key (collapse_value value) args))
  end.

Definition params_from_dictparams (params : pydict) : result pydict :=
  params_loop params (PyDict.keys params) [].

Definition import_body_match_info (request : Request.t) : pydict :=
  match Request.match_info request with
  | Some mi => mi
  | None => []
  end.

Definition import_body_json (request : Request.t) : pydict :=
  if str_in "application/json" (Request.content_type request) then
    match Request.json request with
    | Some j => j
    | None => []
    end
  else [].

Definition import_body_args (request : Request.t) : result pydict :=
  if negb (String.eqb (Request.method request) "POST") then
    match Request.args request with
    | Some a =>
        if (0 <? PyDict.len a)%nat then params_from_dictparams a else Ok []
    | None => Ok []
    end
  else Ok [].

(** [{'type': file.type, 'body': file.body, 'name': file.name}] *)
Definition file_projection (file : pyval) : result pyval :=
  match file with
  | PyFile type body name => Ok (file_dict type body name)
  | _ => raise_new AttributeError "type"
  end.

(** The list comprehension of lines 58-59. *)
Fixpoint project_files (fs : list pyval) : result (list pyval) :=
  match fs with
  | [] => Ok []
  | file :: rest =>
      obind (file_projection file) (fun d =>
        obind (project_files rest) (fun ds => Ok (d :: ds)))
  end.

(** The [for key in request.files] loop. *)
Fixpoint files_loop (request_files : pydict) (ks : list string) (files : pydict)
    : result pydict :=
  match ks with
  | [] => Ok files
  | key :: rest =>
      obind (getitem key request_files) (fun value =>
        match value with
        | PyList fs =>
            obind (project_files fs) (fun ds =>
              files_loop request_files rest (PyDict.set key (PyList ds) files))
        | _ =>
            files_loop request_files rest
              (PyDict.set key (PyDictV request_files) files)
        end)
  end.

Definition import_body_files (request : Request.t) : result pydict :=
  match Request.files request with
  | Some fs =>
      if (0 <? PyDict.len fs)%nat then files_loop fs (PyDict.keys fs) []
      else Ok []
  | None => Ok []
  end.

Definition import_body_form (request : Request.t) : result pydict :=
  match Request.form request with
  | Some f =>
      if (0 <? PyDict.len f)%nat then
        if str_in "multipart/form-data" (Request.content_type request)
        then params_from_dictparams f
        else Ok f
      else Ok []
  | None => Ok []
  end.

(** The [for header in request.headers] loop. *)
Fixpoint headers_loop (request_headers : pydict) (ks : list string)
    (headers : pydict) : result pydict :=
  match ks with
  | [] => Ok headers
  | header :: rest =>
      if String.eqb (lower (String.substring 0 2 header)) "x-" then
        obind (getitem header request_headers) (fun v =>
          headers_loop request_headers rest (PyDict.set header v headers))
      else headers_loop request_headers rest headers
  end.

Definition import_body_headers (request : Request.t) : result pydict :=
  headers_loop (Request.headers request) (PyDict.keys (Request.headers request)) [].

(** Lines 147-155 of [handle]: the body before ['auth'] is set. *)
Definition aggregate_body (request : Request.t) : result pydict :=
  let body := [] in
  let body := PyDict.update body (import_body_match_info request) in
  let body := PyDict.update body (import_body_json request) in
  obind (import_body_args request) (fun a =>
  let body := PyDict.update body a in
  obind (import_body_files request) (fun f =>
  let body := PyDict.update body f in
  obind (import_body_form request) (fun fm =>
  let body := PyDict.update body fm in
  obind (import_body_headers request) (fun h =>
  Ok (PyDict.update body h))))).

(** *** Effectful code *)

(** User code and the response constructors: they read and write the
    world, and return or raise. *)
Definition action (A : Type) := W -> result A * W.

(** Code of the dispatcher: the same, plus the call log. *)
Definition M (A : Type) := state W -> result A * state W.

Definition ret {A} (a : A) : M A := fun s => (Ok a, s).

Definition bind {A B} (m : M A) (f : A -> M B) : M B :=
  fun s =>
    match m s with
    | (Ok a, s') => f a s'
    | (Raise e, s') => (Raise e, s')
    end.

Definition lift {A} (r : result A) : M A := fun s => (r, s).

(** Running code that makes no logged call. *)
Definition run {A} (f : action A) : M A :=
  fun s =>
    let '(r, w') := f (world s) in
    (r, mkState w' (calls s)).

(** [await func(...)] on a hook or verb handler: the call is logged,
    then the user code runs. *)
Definition invoke {A} (c : call) (f : action A) : M A :=
  fun s => run f (mkState (world s) (calls s ++ [c])).

(** [try: body / except cls as e: handler] *)
Definition try_except {A} (body : M A) (cls : Cls) (handler : exc -> M A) : M A :=
  fun s =>
    match body s with
    | (Ok a, s1) => (Ok a, s1)
    | (Raise e, s1) =>
        if issubclass (exc_class e) cls then handler e s1 else (Raise e, s1)
    end.

(** [try: body / finally: final]: [final] runs whatever [body] did, and
    an exception it raises replaces the outcome of [body]. *)
Definition try_finally {A} (body : M A) (final : M unit) : M A :=
  fun s =>
    let '(r, s1) := body s in
    match final s1 with
    | (Ok _, s2) => (r, s2)
    | (Raise e', s2) => (Raise e', s2)
    end.

(** [try: body / except cls as e: handler / finally: final] *)
Definition try_except_finally {A}
    (body : M A) (cls : Cls) (handler : exc -> M A) (final : M unit) : M A :=
  try_finally (try_except body cls handler) final.

(** A resolver registered with [register_exception_handler]. *)
Definition ExceptionHandler := exc -> action pyval.

(** Lines 45-47, the resolver registered for [SanicException] when the
    module is imported. *)
Definition _sanic_exceptions : ExceptionHandler :=
  fun e w =>
    match exc_status_code e with
    | Some status_code => (Ok (PyTuple [status_code; PyStr (exc_str e); PyNone]), w)
    | None => (raise_new AttributeError "status_code", w)
    end.

(** [_exception_handlers] once [exceptions.py] has been imported. *)
Definition initial_handlers : registry Cls ExceptionHandler :=
  register_exception_handler [SanicException] _sanic_exceptions [].

(** The elements produced by iterating over a value; [None] when the
    value is not iterable. *)
Definition py_iter (v : pyval) : option (list pyval) :=
  match v with
  | PyTuple xs | PyList xs => Some xs
  | PyStr s => Some (map (fun c => PyStr (String c EmptyString)) (list_ascii_of_string s))
  | PyBytes b => Some (map (fun c => PyInt (Z.of_nat (nat_of_ascii c))) b)
  | PyDictV items => Some (map (fun kv => PyStr (fst kv)) items)
  | PyFile type body name => Some [PyStr type; PyBytes body; PyStr name]
  | PyNone | PyInt _ => None
  end.

(** [code, error_code, message, data = v] *)
Definition unpack4 (v : pyval) : result (pyval * pyval * pyval * pyval) :=
  match py_iter v with
  | None => raise_new TypeError "cannot unpack non-iterable object"
  | Some [a; b; c; d] => Ok (a, b, c, d)
  | Some xs =>
      if (List.length xs <? 4)%nat then
        raise_new ValueError
          ("not enough values to unpack (expected 4, got "
             ++ pretty (List.length xs) ++ ")")%string
      else raise_new ValueError "too many values to unpack (expected 4)"
  end.

(** [headers = headers or {}] *)
Definition headers_or_empty (headers : option pydict) : pydict :=
  match headers with
  | Some (kv :: rest) => kv :: rest
  | _ => []
  end.

(** [headers['x-cross-request-id'] = get_request_id()] *)
Definition stamp_request_id (headers : option pydict) (w : W) : pydict :=
  PyDict.set "x-cross-request-id" (get_request_id w) (headers_or_empty headers).

Definition make_response_raw (raw_str : string) (code : pyval)
    (headers : option pydict) (content_type : string) : action Response :=
  fun w =>
    let headers := stamp_request_id headers w in
    (Ok (RawResponse (list_ascii_of_string raw_str) code headers content_type), w).

Definition make_response_text (text : string) (code : pyval)
    (headers : option pydict) (content_type : string) : action Response :=
  fun w =>
    let headers := stamp_request_id headers w in
    (Ok (TextResponse text code headers content_type), w).

Definition make_response_json (code message data error_code : pyval)
    (headers : option pydict) : action Response :=
  fun w =>
    let headers := stamp_request_id headers w in
    match data with
    | PyNone =>
        let message_or_phrase :=
          match message with
          | PyNone =>
              match HTTPStatus_phrase code with
              | Some phrase => Ok (PyStr phrase)
              | None => raise_new ValueError "is not a valid HTTPStatus"
              end
          | _ => Ok message
          end in
        match message_or_phrase with
        | Raise e => (Raise e, w)
        | Ok message =>
            let error_code :=
              match error_code with PyNone => code | _ => error_code end in
            let data := PyDictV [("code", error_code); ("message", message)] in
            (Ok (JsonResponse data code headers), w)
        end
    | _ => (Ok (JsonResponse data code headers), w)
    end.

(** *** The endpoint object *)

Definition BeforeMethod := Request.t -> pydict -> action pydict.
Definition AfterMethod := Request.t -> action unit.
Definition VerbMethod := Request.t -> pydict -> action Response.

(** [self]: the attributes named [method_<verb>] and the hook lists.
    The body is one dict shared by reference between the before-hooks
    and the verb handler: a before-hook returns the content of that dict
    as it leaves it. *)
Record SanicEndpointObj := mkEndpoint {
  methods : PyDict.t string VerbMethod;
  _get_before_methods : list BeforeMethod;
  _get_after_methods : list AfterMethod;
}.

(** [await func(request, body)] for each before-hook in turn. *)
Fixpoint before_loop (i : nat) (funcs : list BeforeMethod)
    (request : Request.t) (body : pydict) : M pydict :=
  match funcs with
  | [] => ret body
  | func :: rest =>
      bind (invoke (CallBefore i request body) (func request body))
           (fun body' => before_loop (S i) rest request body')
  end.

Definition _before_method (self : SanicEndpointObj)
    (request : Request.t) (body : pydict) : M pydict :=
  before_loop 0 (_get_before_methods self) request body.

(** [await func(request)] for each after-hook in turn. *)
Fixpoint after_loop (i : nat) (funcs : list AfterMethod)
    (request : Request.t) : M unit :=
  match funcs with
  | [] => ret tt
  | func :: rest =>
      bind (invoke (CallAfter i request) (func request))
           (fun _ => after_loop (S i) rest request)
  end.

Definition _after_method (self : SanicEndpointObj) (request : Request.t) : M unit :=
  after_loop 0 (_get_after_methods self) request.

Definition _handle_method_exceptions
    (reg : registry Cls ExceptionHandler) (exception : exc) : M Response :=
  let handler := get_exception_handler reg (ExcInstance exception) in
  let code := PyInt 500 in
  let data := PyNone in
  let error_code := PyNone in
  let message := PyStr (exc_str exception) in
  match handler with
  | Some handler =>
      bind (run (handler exception)) (fun tuple =>
      bind (lift (unpack4 tuple)) (fun '(code, error_code, message, data) =>
      run (make_response_json code message data error_code None)))
  | None => run (make_response_json code message data error_code None)
  end.

Definition _method (reg : registry Cls ExceptionHandler)
    (self : SanicEndpointObj) (request : Request.t) (body : pydict) : M Response :=
  bind (run (fun w => (Ok tt, set_request_id w))) (fun _ =>
    let method := lower (Request.method request) in
    let func_name := ("method_" ++ method)%string in
    match PyDict.get func_name (methods self) with
    | Some func =>
        try_except_finally
          (bind (_before_method self request body)
                (fun body' => invoke (CallVerb func_name request body')
                                     (func request body')))
          Exception
          (fun e => _handle_method_exceptions reg e)
          (_after_method self request)
    | None =>
        run (make_response_json (PyInt 405) (PyStr "Method Not Allowed")
               PyNone PyNone None)
    end).

Definition handle (reg : registry Cls ExceptionHandler)
    (self : SanicEndpointObj) (request : Request.t) (auth : pyval) : M Response :=
  bind (lift (aggregate_body request)) (fun body =>
    let body := PyDict.set "auth" auth body in
    _method reg self request body).

(** [method_get] ... [method_patch] of the base class. *)
Definition method_not_impl : VerbMethod :=
  fun request body =>
    make_response_json (PyInt 500)
      (PyStr (Request.method request ++ " Not Impl")%string) PyNone PyNone None.

Definition SanicEndpoint : SanicEndpointObj :=
  mkEndpoint
    (map (fun verb => (("method_" ++ verb)%string, method_not_impl))
         ["get"; "head"; "post"; "put"; "delete"; "connect"; "options";
          "trace"; "patch"])
    [] [].

(** [class HealthEndpoint(SanicEndpoint)] *)
Definition HealthEndpoint : SanicEndpointObj :=
  mkEndpoint
    (PyDict.set "method_get"
       (fun request body =>
          make_response_raw "Health" (PyInt 200) None "application/octet-stream")
       (methods SanicEndpoint))
    (_get_before_methods SanicEndpoint)
    (_get_after_methods SanicEndpoint).
End Endpoint.

(** ** Notions used to state further properties *)

(** The test of line 84 on a header name. *)
Definition is_x_header (header : string) : bool :=
  String.eqb (lower (String.substring 0 2 header)) "x-".

(** The value of [key] in the first of [sources] that has the key. *)
Fixpoint first_of (key : string) (sources : list pydict) : option pyval :=
  match sources with
  | [] => None
  | d :: rest =>
      match PyDict.get key d with
      | Some v => Some v
      | None => first_of key rest
      end
  end.

(** A mapping attribute of the request, when it is not [None], has
    unique keys. *)
Definition option_wf (d : option pydict) : Prop :=
  match d with
  | Some d => PyDict.wf d
  | None => True
  end.

(** The mappings of the request that are copied as they are have unique
    keys, and the lists of [request.files] hold file items. *)
Definition request_wf (request : Request.t) : Prop :=
  option_wf (Request.match_info request)
  /\ option_wf (Request.json request)
  /\ option_wf (Request.form request)
  /\ (forall fs, Request.files request = Some fs -> lists_hold_files fs).

Definition is_before_call (c : call) : bool :=
  match c with CallBefore _ _ _ => true | _ => false end.

Definition is_verb_call (c : call) : bool :=
  match c with CallVerb _ _ _ => true | _ => false end.

Definition response_headers (response : Response) : pydict :=
  match response with
  | JsonResponse _ _ headers => headers
  | TextResponse _ _ headers _ => headers
  | RawResponse _ _ headers _ => headers
  | FileResponse _ headers => headers
  end.

(** The calls to the before-hooks numbered from [i], with the bodies
    they receive. *)
Fixpoint before_calls (i : nat) (request : Request.t) (bodies : list pydict) : list call :=
  match bodies with
  | [] => []
  | body :: rest => CallBefore i request body :: before_calls (S i) request rest
  end.

(** The calls to the after-hooks numbered [0] to [n - 1]. *)
Definition after_calls (n : nat) (request : Request.t) : list call :=
  map (fun k => CallAfter k request) (seq 0 n).

(** The verbs for which the base class defines [method_<verb>]. *)
Definition base_verbs : list string :=
  ["get"; "head"; "post"; "put"; "delete"; "connect"; "options"; "trace"; "patch"].

(** ** The dispatcher with the extra arguments of a call

    [handle], [_method], [_before_method] and [_after_method] take
    [*args, **kwargs] and forward them to every hook and to the verb
    handler. Here the hooks and handlers are functions of their whole
    argument list, so that what they receive is part of what is proved;
    [_method] above is the case of a call without extra arguments
    ([method_args_without_extras]). *)

(** A positional argument of a hook or verb handler. *)
Inductive pyarg :=
| ArgRequest (request : Request.t)
| ArgBody (body : pydict)
| ArgValue (v : pyval).

Section EndpointArgs.
Context {Cls : Type} `{PyClasses Cls} {W : Type}.
Context (set_request_id : W -> W) (get_request_id : W -> pyval).
Context (HTTPStatus_phrase : pyval -> option string).

(** A coroutine function, called with positional and keyword arguments. *)
Definition Callable (A : Type) := list pyarg -> pydict -> @action Cls W A.

(** [self], with hooks and verb handlers as functions of their
    arguments. A before-hook returns the content of the shared body dict
    as it leaves it. *)
Record SanicEndpointArgs := mkEndpointArgs {
  methods_args : PyDict.t string (Callable Response);
  _get_before_methods_args : list (Callable pydict);
  _get_after_methods_args : list (Callable unit);
}.

(** [await func(request, body, *args, **kwargs)] for each before-hook. *)
Fixpoint before_loop_args (funcs : list (Callable pydict))
    (request : Request.t) (body : pydict) (args : list pyval) (kwargs : pydict)
    : @M Cls W pydict :=
  match funcs with
  | [] => ret body
  | func :: rest =>
      bind (run (func (ArgRequest request :: ArgBody body :: map ArgValue args) kwargs))
           (fun body' => before_loop_args rest request body' args kwargs)
  end.

Definition _before_method_args (self : SanicEndpointArgs)
    (request : Request.t) (body : pydict) (args : list pyval) (kwargs : pydict)
    : @M Cls W pydict :=
  before_loop_args (_get_before_methods_args self) request body args kwargs.

(** [await func(request, *args, **kwargs)] for each after-hook. *)
Fixpoint after_loop_args (funcs : list (Callable unit))
    (request : Request.t) (args : list pyval) (kwargs : pydict) : @M Cls W unit :=
  match funcs with
  | [] => ret tt
  | func :: rest =>
      bind (run (func (ArgRequest request :: map ArgValue args) kwargs))
           (fun _ => after_loop_args rest request args kwargs)
  end.

Definition _after_method_args (self : SanicEndpointArgs)
    (request : Request.t) (args : list pyval) (kwargs : pydict) : @M Cls W unit :=
  after_loop_args (_get_after_methods_args self) request args kwargs.

(** [_method(self, request, body, *args, **kwargs)];
    [_handle_method_exceptions] takes the extra arguments and does not use
    them. *)
Definition _method_args (reg : registry Cls (@ExceptionHandler Cls W))
    (self : SanicEndpointArgs) (request : Request.t) (body : pydict)
    (args : list pyval) (kwargs : pydict) : @M Cls W Response :=
  bind (run (fun w => (Ok tt, set_request_id w))) (fun _ =>
    let method := lower (Request.method request) in
    let func_name := ("method_" ++ method)%string in
    match PyDict.get func_name (methods_args self) with
    | Some func =>
        try_except_finally
          (bind (_before_method_args self request body args kwargs)
                (fun body' =>
                   run (func (ArgRequest request :: ArgBody body' :: map ArgValue args)
                          kwargs)))
          Exception
          (fun e => _handle_method_exceptions get_request_id HTTPStatus_phrase reg e)
          (_after_method_args self request args kwargs)
    | None =>
        run (make_response_json get_request_id HTTPStatus_phrase
               (PyInt 405) (PyStr "Method Not Allowed") PyNone PyNone None)
    end).

(** [handle(self, request, auth, *args, **kwargs)] *)
Definition handle_args (reg : registry Cls (@ExceptionHandler Cls W))
    (self : SanicEndpointArgs) (request : Request.t) (auth : pyval)
    (args : list pyval) (kwargs : pydict) : @M Cls W Response :=
  bind (lift (aggregate_body request)) (fun body =>
    let body := PyDict.set "auth" auth body in
    _method_args reg self request body args kwargs).

(** What running a list of hooks means: each hook in turn is applied to
    the arguments [args] and [kwargs] in the world the previous one left;
    the run ends after the last hook, or with the first hook that raises,
    and then the hooks after it are not applied. *)
Inductive hooks_applied (args : list pyarg) (kwargs : pydict)
    : list (Callable unit) -> W -> outcome Cls unit -> W -> Prop :=
| applied_all w :
    hooks_applied args kwargs [] w (Ok tt) w
| applied_return hook rest w w1 r w2 :
    hook args kwargs w = (Ok tt, w1) ->
    hooks_applied args kwargs rest w1 r w2 ->
    hooks_applied args kwargs (hook :: rest) w r w2
| applied_raise hook rest w e w1 :
    hook args kwargs w = (Raise e, w1) ->
    hooks_applied args kwargs (hook :: rest) w (Raise e) w1.

(** What running the before-hooks means: each hook in turn is applied to
    the request and to the body the previous one left, in the world the
    previous one left; [bodies] are the bodies the hooks received. The run
    ends after the last hook or with the first one that raises. *)
Inductive before_hooks_applied (request : Request.t)
    : list (@BeforeMethod Cls W) -> pydict -> W ->
      outcome Cls pydict -> W -> list pydict -> Prop :=
| before_applied_all body w :
    before_hooks_applied request [] body w (Ok body) w []
| before_applied_return hook rest body w body1 w1 r w2 bodies :
    hook request body w = (Ok body1, w1) ->
    before_hooks_applied request rest body1 w1 r w2 bodies ->
    before_hooks_applied request (hook :: rest) body w r w2 (body :: bodies)
| before_applied_raise hook rest body w e w1 :
    hook request body w = (Raise e, w1) ->
    before_hooks_applied request (hook :: rest) body w (Raise e) w1 [body].

(** A hook or verb handler of [SanicEndpointObj] as a function of its
    arguments: a call with other arguments than it takes is a
    [TypeError]. *)
Definition before_callable (func : @BeforeMethod Cls W) : Callable pydict :=
  fun args kwargs =>
    match args, kwargs with
    | [ArgRequest request; ArgBody body], [] => func request body
    | _, _ => fun w => (raise_new TypeError "positional arguments", w)
    end.

Definition after_callable (func : @AfterMethod Cls W) : Callable unit :=
  fun args kwargs =>
    match args, kwargs with
    | [ArgRequest request], [] => func request
    | _, _ => fun w => (raise_new TypeError "positional arguments", w)
    end.

Definition verb_callable (func : @VerbMethod Cls W) : Callable Response :=
  fun args kwargs =>
    match args, kwargs with
    | [ArgRequest request; ArgBody body], [] => func request body
    | _, _ => fun w => (raise_new TypeError "positional arguments", w)
    end.

Definition endpoint_callables (self : @SanicEndpointObj Cls W) : SanicEndpointArgs :=
  mkEndpointArgs
    (map (fun kv => (fst kv, verb_callable (snd kv))) (methods self))
    (map before_callable (_get_before_methods self))
    (map after_callable (_get_after_methods self)).
End EndpointArgs.

(** Two computations agree when, started in the same world, they have
    the same outcome and leave the same world; the call logs may differ. *)
Definition agree {Cls W A : Type} (m1 m2 : @M Cls W A) : Prop :=
  forall s1 s2,
    world s1 = world s2 ->
    fst (m1 s1) = fst (m2 s2) /\ world (snd (m1 s1)) = world (snd (m2 s2)).

(** A value that [json.dumps] accepts: no bytes and no file item, at any
    depth. *)
Fixpoint json_serialisable (v : pyval) : bool :=
  match v with
  | PyNone | PyInt _ | PyStr _ => true
  | PyBytes _ | PyFile _ _ _ => false
  | PyList xs | PyTuple xs => forallb json_serialisable xs
  | PyDictV items => forallb (fun kv => json_serialisable (snd kv)) items
  end.

(** ** A concrete interpreter, to run the code on examples *)

(** Built-in exception classes, sanic's [SanicException] and [NotFound],
    and this package's [RoutingErrorException]. *)
Inductive pyclass :=
| C_BaseException
| C_KeyboardInterrupt
| C_Exception
| C_LookupError
| C_KeyError
| C_ValueError
| C_TypeError
| C_AttributeError
| C_SanicException
| C_NotFound
| C_RoutingErrorException.

#[global] Instance pyclass_eq_dec : EqDecision pyclass.
Proof. solve_decision. Defined.

(** [cls.__base__] *)
Definition pyclass_base (c : pyclass) : option pyclass :=
  match c with
  | C_BaseException => None
  | C_KeyboardInterrupt => Some C_BaseException
  | C_Exception => Some C_BaseException
  | C_LookupError => Some C_Exception
  | C_KeyError => Some C_LookupError
  | C_ValueError => Some C_Exception
  | C_TypeError => Some C_Exception
  | C_AttributeError => Some C_Exception
  | C_SanicException => Some C_Exception
  | C_NotFound => Some C_SanicException
  | C_RoutingErrorException => Some C_SanicException
  end.

(** [cls.__mro__], walking up at most [fuel] classes. *)
Fixpoint pyclass_mro (fuel : nat) (c : pyclass) : list pyclass :=
  match fuel with
  | O => []
  | S fuel' =>
      c :: match pyclass_base c with
           | Some b => pyclass_mro fuel' b
           | None => []
           end
  end.

Definition pyclass_issubclass (c k : pyclass) : bool :=
  bool_decide (k ∈ pyclass_mro 5 c).

#[global] Instance pyclass_classes : PyClasses pyclass := {|
  issubclass := pyclass_issubclass;
  issubclass_refl := ltac:(intros []; reflexivity);
  issubclass_trans := ltac:(intros [] [] []; vm_compute; congruence);
  Exception := C_Exception;
  SanicException := C_SanicException;
  RoutingErrorException := C_RoutingErrorException;
  ValueError := C_ValueError;
  TypeError := C_TypeError;
  AttributeError := C_AttributeError;
  KeyError := C_KeyError;
  RoutingErrorException_base := eq_refl;
|}.

(** A world with the ambient request id and a journal that hooks and
    handlers write to. *)
Record demo_world := mkWorld {
  request_id : nat;
  journal : list string;
}.

Definition demo_set_request_id (w : demo_world) : demo_world :=
  mkWorld (S (request_id w)) (journal w).

Definition demo_get_request_id (w : demo_world) : pyval :=
  PyStr ("req-" ++ pretty (request_id w)).

Definition demo_HTTPStatus_phrase (code : pyval) : option string :=
  match code with
  | PyInt 200 => Some "OK"
  | PyInt 400 => Some "Bad Request"
  | PyInt 404 => Some "Not Found"
  | PyInt 405 => Some "Method Not Allowed"
  | PyInt 500 => Some "Internal Server Error"
  | _ => None
  end.

(** A hook or handler that notes its name in the journal. *)
Definition note {A} (name : string) (a : A) : demo_world -> outcome pyclass A * demo_world :=
  fun w => (Ok a, mkWorld (request_id w) (journal w ++ [name])).

(** User code that notes its name and raises. *)
Definition note_raise {A} (name : string) (e : PyException pyclass)
    : demo_world -> outcome pyclass A * demo_world :=
  fun w => (Raise e, mkWorld (request_id w) (journal w ++ [name])).

(** Two resolvers of an application. *)
Definition resolverBase_demo : PyException pyclass -> demo_world -> outcome pyclass pyval * demo_world :=
  fun e w => (Ok (PyTuple [PyInt 400; PyInt 1; PyStr "base"; PyNone]), w).

Definition resolverSpecific_demo : PyException pyclass -> demo_world -> outcome pyclass pyval * demo_world :=
  fun e w => (Ok (PyTuple [PyInt 404; PyInt 2; PyStr "specific"; PyNone]), w).

Definition demo_request (method : string) : Request.t :=
  Request.mk method "text/plain" None None None None None [].

Definition demo_endpoint : @SanicEndpointObj pyclass demo_world :=
  mkEndpoint
    (methods (SanicEndpoint demo_get_request_id demo_HTTPStatus_phrase))
    [fun request body => note "before0" body; fun request body => note "before1" body]
    [fun request => note "after0" tt; fun request => note "after1" tt].

Definition demo_state : state demo_world := mkState (mkWorld 0 []) [].

(** An endpoint whose [method_get] raises [ValueError("boom")]. *)
Definition demo_failing_endpoint : @SanicEndpointObj pyclass demo_world :=
  mkEndpoint
    (PyDict.set "method_get"
       (fun request body => note_raise "get" (mkException C_ValueError "boom" None))
       (methods demo_endpoint))
    (_get_before_methods demo_endpoint)
    (_get_after_methods demo_endpoint).

(** An endpoint whose first after-hook raises. *)
Definition demo_failing_after_endpoint : @SanicEndpointObj pyclass demo_world :=
  mkEndpoint
    (methods demo_endpoint)
    (_get_before_methods demo_endpoint)
    [fun request => note_raise "after0" (mkException C_KeyError "cleanup" None);
     fun request => note "after1" tt].

(** POST, JSON body [{id: "2"}], path parameter [{id: "1"}] and query
    string [?id=3]. *)
Definition demo_post_request : Request.t :=
  Request.mk "POST" "application/json; charset=utf-8"
    (Some [("id", PyStr "1")])
    (Some [("id", PyStr "2")])
    (Some [("id", PyList [PyStr "3"])])
    None None
    [("content-type", PyStr "application/json; charset=utf-8")].

(** An upload with a list of two files under [docs] and a value that is
    not a list under [avatar]. *)
Definition demo_files : pydict :=
  [("docs", PyList [PyFile "text/plain" ["a"%char] "a.txt";
                    PyFile "image/png" ["b"%char] "b.png"]);
   ("avatar", PyFile "image/png" ["c"%char] "c.png")].

Definition demo_upload_request : Request.t :=
  Request.mk "POST" "multipart/form-data" None None None (Some demo_files) None [].

(** A JSON POST whose body carries an [auth] key of its own. *)
Definition demo_spoof_request : Request.t :=
  Request.mk "POST" "application/json"
    None (Some [("auth", PyStr "root"); ("id", PyStr "7")]) None None None
    [("X-Trace", PyStr "abc"); ("Content-Type", PyStr "application/json")].

(** An endpoint whose [method_get] raises [RoutingErrorException]. *)
Definition demo_routing_error_endpoint : @SanicEndpointObj pyclass demo_world :=
  mkEndpoint
    (PyDict.set "method_get"
       (fun request body => note_raise "get" (new_RoutingErrorException "no route"))
       (methods demo_endpoint))
    (_get_before_methods demo_endpoint)
    (_get_after_methods demo_endpoint).

(** An endpoint whose [method_get] raises [KeyboardInterrupt], which is
    not an [Exception]. *)
Definition demo_interrupt_endpoint : @SanicEndpointObj pyclass demo_world :=
  mkEndpoint
    (PyDict.set "method_get"
       (fun request body => note_raise "get" (mkException C_KeyboardInterrupt "" None))
       (methods demo_endpoint))
    (_get_before_methods demo_endpoint)
    (_get_after_methods demo_endpoint).

(** An endpoint whose second before-hook raises. *)
Definition demo_failing_before_endpoint : @SanicEndpointObj pyclass demo_world :=
  mkEndpoint
    (methods demo_endpoint)
    [fun request body => note "before0" body;
     fun request body => note_raise "before1" (mkException C_ValueError "denied" None);
     fun request body => note "before2" body]
    (_get_after_methods demo_endpoint).

(** A resolver that returns two values instead of four. *)
Definition resolverShort_demo : PyException pyclass -> demo_world -> outcome pyclass pyval * demo_world :=
  fun e w => (Ok (PyTuple [PyInt 400; PyStr "short"]), w).

(** The POST of [demo_post_request] with a tracing header. *)
Definition demo_post_trace_request : Request.t :=
  Request.mk "POST" "application/json"
    None (Some [("id", PyStr "2")]) (Some [("id", PyList [PyStr "3"])]) None None
    [("X-Trace", PyStr "abc")].




(** * Properties *)

(** ** Dictionaries *)

Module PyDictFacts.
Section Facts.
Context {K V : Type} `{EqDecision K}.
Implicit Types (d : PyDict.t K V) (k : K) (v : V).

Lemma get_set_eq k v d : PyDict.get k (PyDict.set k v d) = Some v.
Proof.
  induction d as [|[k' v'] d IH]; simpl.
  - by rewrite decide_True.
  - destruct (decide (k = k')) as [->|Hne]; simpl.
    + by rewrite decide_True.
    + by rewrite decide_False.
Qed.

Lemma get_set_ne k k' v d :
  k <> k' -> PyDict.get k' (PyDict.set k v d) = PyDict.get k' d.
Proof.
  intros Hne. induction d as [|[k0 v0] d IH]; simpl.
  - rewrite decide_False; [done|congruence].
  - destruct (decide (k = k0)) as [->|Hne0]; simpl.
    + rewrite !decide_False; [done|congruence|congruence].
    + by rewrite IH.
Qed.

Lemma get_set k k' v d :
  PyDict.get k' (PyDict.set k v d)
  = if decide (k' = k) then Some v else PyDict.get k' d.
Proof.
  destruct (decide (k' = k)) as [->|Hne].
  - apply get_set_eq.
  - apply get_set_ne; congruence.
Qed.

Lemma get_None_keys k d : PyDict.get k d = None <-> k ∉ PyDict.keys d.
Proof.
  induction d as [|[k' v'] d IH]; simpl.
  - split; [intros _; apply not_elem_of_nil|done].
  - rewrite not_elem_of_cons. destruct (decide (k = k')) as [->|Hne].
    + split; [done|intros [? _]; done].
    + rewrite IH. tauto.
Qed.

Lemma contains_keys k d : PyDict.contains k d = true <-> k ∈ PyDict.keys d.
Proof.
  unfold PyDict.contains. destruct (PyDict.get k d) eqn:Hg.
  - split; [intros _|done].
    destruct (decide (k ∈ PyDict.keys d)) as [|Hn]; [done|].
    apply get_None_keys in Hn. congruence.
  - split; [done|]. intros Hin. apply get_None_keys in Hg. done.
Qed.

Lemma get_Some_elem k v d : PyDict.get k d = Some v -> (k, v) ∈ d.
Proof.
  induction d as [|[k' v'] d IH]; simpl; [done|].
  destruct (decide (k = k')) as [->|Hne].
  - intros [= ->]. left.
  - intros Hg. right. auto.
Qed.

Lemma elem_get_wf k v d : PyDict.wf d -> (k, v) ∈ d -> PyDict.get k d = Some v.
Proof.
  unfold PyDict.wf. induction d as [|[k' v'] d IH]; simpl.
  - intros _ Hin. by apply elem_of_nil in Hin.
  - rewrite NoDup_cons. intros [Hnotin Hnd] Hin.
    apply elem_of_cons in Hin as [[= -> ->]|Hin].
    + by rewrite decide_True.
    + rewrite decide_False; [auto|].
      intros ->. apply Hnotin.
      change k' with (fst (k', v)). by apply list_elem_of_fmap_2.
Qed.

(** A key that is present keeps its place; a new key goes last. *)
Lemma keys_set k v d :
  PyDict.keys (PyDict.set k v d)
  = if PyDict.contains k d then PyDict.keys d else PyDict.keys d ++ [k].
Proof.
  unfold PyDict.contains.
  induction d as [|[k' v'] d IH]; simpl; [done|].
  destruct (decide (k = k')) as [->|Hne]; simpl; [done|].
  rewrite IH. by destruct (PyDict.get k d).
Qed.

Lemma set_absent k v d : PyDict.get k d = None -> PyDict.set k v d = d ++ [(k, v)].
Proof.
  induction d as [|[k' v'] d IH]; simpl; [done|].
  destruct (decide (k = k')); [done|]. intros Hg. by rewrite IH.
Qed.

Lemma length_set_present k v d :
  PyDict.contains k d = true -> List.length (PyDict.set k v d) = List.length d.
Proof.
  unfold PyDict.contains.
  induction d as [|[k' v'] d IH]; simpl; [done|].
  destruct (decide (k = k')); simpl; [done|]. intros Hc. by rewrite IH.
Qed.

Lemma wf_set k v d : PyDict.wf d -> PyDict.wf (PyDict.set k v d).
Proof.
  unfold PyDict.wf. rewrite keys_set.
  destruct (PyDict.contains k d) eqn:Hc; [done|].
  intros Hnd. apply NoDup_app. split_and!; [done| |apply NoDup_singleton].
  intros x Hx Hx'. apply list_elem_of_singleton in Hx' as ->.
  apply contains_keys in Hx. congruence.
Qed.

Lemma keys_set_prefix k v d : PyDict.keys d `prefix_of` PyDict.keys (PyDict.set k v d).
Proof.
  rewrite keys_set. destruct (PyDict.contains k d); [done|].
  by apply prefix_app_r.
Qed.
(** Iteration order is the order of first assignment. *)
Lemma keys_fold_set (l : list (K * V)) d :
  PyDict.keys (fold_left (fun r kv => PyDict.set (fst kv) (snd kv) r) l d)
  = PyDict.keys d ++ PyDict.first_occurrences (PyDict.keys d) (map fst l).
Proof.
  revert d. induction l as [|[k v] l IH]; intros d; simpl.
  - by rewrite app_nil_r.
  - rewrite IH, keys_set. destruct (PyDict.contains k d) eqn:Hc.
    + apply contains_keys in Hc. by rewrite decide_True.
    + rewrite decide_False, <- app_assoc; [done|].
      intros Hin. apply contains_keys in Hin. congruence.
Qed.
End Facts.
End PyDictFacts.

(** ** The exception registry *)

Section RegistryFacts.
Context {Cls : Type} `{PyClasses Cls} {Handler : Type}.
Implicit Types (reg : registry Cls Handler) (e : PyException Cls).
Implicit Types (history : list (list Cls * Handler)).

Lemma register_as_sets (exceptions : list Cls) (func : Handler) reg :
  register_exception_handler exceptions func reg
  = fold_left (fun r kv => PyDict.set (fst kv) (snd kv) r)
      (map (fun c => (c, func)) exceptions) reg.
Proof.
  unfold register_exception_handler. revert reg.
  induction exceptions as [|c cs IH]; intros reg; simpl; [done|]. apply IH.
Qed.

Lemma replay_as_sets history reg :
  replay history reg
  = fold_left (fun r kv => PyDict.set (fst kv) (snd kv) r) (flatten_history history) reg.
Proof.
  unfold replay, flatten_history. revert reg.
  induction history as [|[cs f] hs IH]; intros reg; simpl; [done|].
  rewrite fold_left_app, IH, register_as_sets. done.
Qed.

Lemma get_fold_set (l : list (Cls * Handler)) reg c :
  PyDict.get c (fold_left (fun r kv => PyDict.set (fst kv) (snd kv) r) l reg)
  = match PyDict.get c (rev l) with
    | Some f => Some f
    | None => PyDict.get c reg
    end.
Proof.
  revert reg. induction l as [|[k f] l IH]; intros reg; simpl; [done|].
  rewrite IH. clear IH.
  assert (Happ : forall (l1 : list (Cls * Handler)),
    PyDict.get c (l1 ++ [(k, f)])
    = match PyDict.get c l1 with
      | Some g => Some g
      | None => if decide (c = k) then Some f else None
      end).
  { induction l1 as [|[k1 f1] l1 IH1]; simpl; [done|].
    destruct (decide (c = k1)); [done|]. apply IH1. }
  rewrite Happ. destruct (PyDict.get c (rev l)); [done|].
  rewrite PyDictFacts.get_set. by destruct (decide (c = k)).
Qed.

Lemma get_replay history c :
  PyDict.get c (replay history []) = most_recent c history.
Proof.
  unfold most_recent. rewrite replay_as_sets, get_fold_set.
  by destruct (PyDict.get c (rev (flatten_history history))).
Qed.

(** For an instance, [default] is never assigned: the [issubclass] test
    of line 39 is only reached after [isinstance] failed on the same
    pair. *)
Lemma scan_handlers_instance e (items : list (Cls * Handler)) :
  scan_handlers (ExcInstance e) (exc_class e) None items = first_match e items.
Proof.
  unfold first_match.
  induction items as [|[key handler] rest IH]; simpl; [done|].
  destruct (issubclass (exc_class e) key); [done|]. apply IH.
Qed.

Lemma get_exception_handler_instance reg e :
  get_exception_handler reg (ExcInstance e)
  = match PyDict.get (exc_class e) reg with
    | Some f => Some f
    | None => first_match e reg
    end.
Proof.
  unfold get_exception_handler, PyDict.contains. simpl.
  destruct (PyDict.get (exc_class e) reg); [done|].
  apply scan_handlers_instance.
Qed.

Lemma first_match_app_None e (l1 l2 : list (Cls * Handler)) :
  (forall k, k ∈ PyDict.keys l1 -> issubclass (exc_class e) k = false) ->
  first_match e (l1 ++ l2) = first_match e l2.
Proof.
  unfold first_match. induction l1 as [|[k f] l1 IH]; simpl; intros Hno; [done|].
  rewrite (Hno k) by left. apply IH. intros k' Hk'. apply Hno. by right.
Qed.

Lemma register_one (c : Cls) (f : Handler) reg :
  register_exception_handler [c] f reg = PyDict.set c f reg.
Proof. done. Qed.

Lemma register_keys_prefix (exceptions : list Cls) (func : Handler) reg :
  PyDict.keys reg `prefix_of` PyDict.keys (register_exception_handler exceptions func reg).
Proof.
  unfold register_exception_handler. revert reg.
  induction exceptions as [|c cs IH]; intros reg; simpl; [done|].
  etrans; [apply (PyDictFacts.keys_set_prefix c func)|apply IH].
Qed.

Lemma register_wf (exceptions : list Cls) (func : Handler) reg :
  PyDict.wf reg -> PyDict.wf (register_exception_handler exceptions func reg).
Proof.
  unfold register_exception_handler. revert reg.
  induction exceptions as [|c cs IH]; intros reg Hwf; simpl; [done|].
  apply IH. by apply PyDictFacts.wf_set.
Qed.

(** A registry built by registrations alone has one entry per class. *)
Lemma replay_wf history reg : PyDict.wf reg -> PyDict.wf (replay history reg).
Proof.
  unfold replay. revert reg.
  induction history as [|[cs f] hs IH]; intros reg Hwf; simpl; [done|].
  by apply IH, register_wf.
Qed.

(** C2. When the exact class of the raised instance has been registered,
    [get_exception_handler] returns the resolver of the latest
    registration of that class, whatever ancestors are registered;
    otherwise it returns the resolver of the first entry of the registry,
    in insertion order, whose class the exception is an instance of, and
    [None] when there is no such entry. The entries of the registry are
    its classes in the order of their first registration. *)
Theorem get_exception_handler_resolution history e :
  let reg := replay history [] in
  get_exception_handler reg (ExcInstance e)
  = match most_recent (exc_class e) history with
    | Some resolver => Some resolver
    | None =>
        match List.find (fun kv => isinstance (ExcInstance e) (fst kv)) reg with
        | Some (_, resolver) => Some resolver
        | None => None
        end
    end
  /\ PyDict.keys reg
     = PyDict.first_occurrences [] (map fst (flatten_history history)).
Proof.
  intros reg. split.
  - rewrite get_exception_handler_instance.
    unfold reg at 1. rewrite get_replay.
    destruct (most_recent (exc_class e) history); [done|].
    unfold first_match.
    by destruct (List.find _ reg) as [[? ?]|].
  - unfold reg. by rewrite replay_as_sets, PyDictFacts.keys_fold_set.
Qed.

(** C1 (amended). After [resolverBase] is registered for [Base] and then
    [resolverSpecific] for its subclass [Specific], a raised instance of
    [Specific] resolves to [resolverSpecific]: its exact class is
    registered and the exact lookup decides. The first registered
    ancestor, [resolverBase], is what an instance of an unregistered
    proper subclass of [Specific] resolves to, when no earlier entry of
    the registry matches it. *)
Theorem exact_class_before_first_ancestor
    reg (Base Specific : Cls) (resolverBase resolverSpecific : Handler) :
  issubclass Specific Base = true ->
  let reg' :=
    register_exception_handler [Specific] resolverSpecific
      (register_exception_handler [Base] resolverBase reg) in
  (forall e, exc_class e = Specific ->
     get_exception_handler reg' (ExcInstance e) = Some resolverSpecific)
  /\ (forall e,
        issubclass (exc_class e) Specific = true ->
        exc_class e <> Specific -> exc_class e <> Base -> Base <> Specific ->
        (forall k, k ∈ PyDict.keys reg -> issubclass (exc_class e) k = false) ->
        get_exception_handler reg' (ExcInstance e) = Some resolverBase).
Proof.
  intros Hsub reg'. unfold reg'. rewrite !register_one. split.
  - intros e <-. rewrite get_exception_handler_instance.
    by rewrite PyDictFacts.get_set_eq.
  - intros e HeS HneS HneB HBS Hreg.
    assert (HeB : issubclass (exc_class e) Base = true)
      by (eapply issubclass_trans; eauto).
    assert (Habsent : forall c, issubclass (exc_class e) c = true ->
                                PyDict.get c reg = None).
    { intros c Hc. apply PyDictFacts.get_None_keys. intros Hin.
      apply Hreg in Hin. congruence. }
    rewrite get_exception_handler_instance.
    rewrite !PyDictFacts.get_set_ne by congruence.
    rewrite (Habsent (exc_class e)) by apply issubclass_refl.
    rewrite (PyDictFacts.set_absent Base) by auto.
    rewrite PyDictFacts.set_absent.
    2:{ rewrite <- (PyDictFacts.set_absent Base resolverBase) by auto.
        rewrite PyDictFacts.get_set_ne by done. auto. }
    rewrite <- app_assoc, first_match_app_None by done.
    unfold first_match. simpl. by rewrite HeB.
Qed.

(** C7 (amended). Registering a class [T] again replaces the resolver of
    its single registry entry in place: the exact lookup of [T] yields
    the new resolver, [T] keeps its position in iteration order, the
    other entries are untouched and the pair with the old resolver is
    gone. No registration removes a class or reorders the classes
    registered before it. *)
Theorem reregistration_replaces_in_place reg (T : Cls) (r1 r2 : Handler) :
  PyDict.wf reg ->
  let reg1 := register_exception_handler [T] r1 reg in
  let reg2 := register_exception_handler [T] r2 reg1 in
  PyDict.get T reg2 = Some r2
  /\ (forall e, exc_class e = T ->
        get_exception_handler reg2 (ExcInstance e) = Some r2)
  /\ PyDict.keys reg2 = PyDict.keys reg1
  /\ (forall k, k <> T -> PyDict.get k reg2 = PyDict.get k reg1)
  /\ (forall r, (T, r) ∈ reg2 -> r = r2)
  /\ (forall exceptions func reg0,
        PyDict.keys reg0 `prefix_of`
          PyDict.keys (register_exception_handler exceptions func reg0)).
Proof.
  intros Hwf reg1 reg2. unfold reg2, reg1. rewrite !register_one.
  split_and!.
  - apply PyDictFacts.get_set_eq.
  - intros e <-. rewrite get_exception_handler_instance.
    by rewrite PyDictFacts.get_set_eq.
  - rewrite (PyDictFacts.keys_set T r2).
    unfold PyDict.contains. by rewrite PyDictFacts.get_set_eq.
  - intros k Hne. apply PyDictFacts.get_set_ne. congruence.
  - intros r Hin. apply PyDictFacts.elem_get_wf in Hin.
    + rewrite PyDictFacts.get_set_eq in Hin. congruence.
    + by do 2 apply PyDictFacts.wf_set.
  - apply register_keys_prefix.
Qed.
End RegistryFacts.

(** C1, as the spec states it, fails: with a resolver registered for
    [SanicException] and then another for its subclass
    [RoutingErrorException], a raised [RoutingErrorException] resolves to
    the second resolver. *)
Lemma first_ancestor_wins_counterexample :
  let reg :=
    register_exception_handler [C_RoutingErrorException] resolverSpecific_demo
      (register_exception_handler [C_SanicException] resolverBase_demo
         initial_handlers) in
  let e := new_RoutingErrorException "no route" in
  issubclass C_RoutingErrorException C_SanicException = true
  /\ get_exception_handler reg (ExcInstance e) = Some resolverSpecific_demo
  /\ get_exception_handler reg (ExcInstance e) <> Some resolverBase_demo.
Proof.
  split_and!; [reflexivity|reflexivity|].
  intros Heq. vm_compute in Heq.
  injection Heq as Heq.
  apply (f_equal (fun f => f (mkException C_Exception "" None) (mkWorld 0 []))) in Heq.
  discriminate Heq.
Qed.

Lemma exact_class_before_first_ancestor_witness :
  issubclass C_RoutingErrorException C_SanicException = true
  /\ get_exception_handler
       (register_exception_handler [C_RoutingErrorException] resolverSpecific_demo
          (register_exception_handler [C_SanicException] resolverBase_demo []))
       (ExcInstance (new_RoutingErrorException "no route"))
     = Some resolverSpecific_demo.
Proof.
  split; [reflexivity|].
  apply (exact_class_before_first_ancestor [] C_SanicException C_RoutingErrorException
           resolverBase_demo resolverSpecific_demo); reflexivity.
Defined.

(** C7, as the spec states it, fails: [SanicException] is registered with
    [_sanic_exceptions] when the module is imported; after an application
    registers it again the registry still has one entry, and the pair
    with [_sanic_exceptions] is not in it. *)
Lemma both_entries_remain_counterexample :
  let reg : registry pyclass (@ExceptionHandler pyclass demo_world) :=
    register_exception_handler [C_SanicException] resolverBase_demo
      initial_handlers in
  initial_handlers = [(C_SanicException, @_sanic_exceptions pyclass _ demo_world)]
  /\ reg = [(C_SanicException, resolverBase_demo)]
  /\ List.length reg = 1%nat
  /\ ~ ((C_SanicException, _sanic_exceptions) ∈ reg
        /\ (C_SanicException, resolverBase_demo) ∈ reg).
Proof.
  split_and!; [reflexivity|reflexivity|reflexivity|].
  intros [Hin _]. vm_compute in Hin.
  apply list_elem_of_singleton in Hin. injection Hin as Heq.
  apply (f_equal (fun f => f (mkException C_Exception "" (Some PyNone)) (mkWorld 0 []))) in Heq.
  discriminate Heq.
Qed.

Lemma reregistration_replaces_in_place_witness :
  PyDict.wf (@initial_handlers pyclass _ demo_world)
  /\ PyDict.get C_SanicException
       (register_exception_handler [C_SanicException] resolverSpecific_demo
          (register_exception_handler [C_SanicException] resolverBase_demo
             (@initial_handlers pyclass _ demo_world)))
     = Some resolverSpecific_demo.
Proof.
  assert (Hwf : PyDict.wf (@initial_handlers pyclass _ demo_world)).
  { apply NoDup_singleton. }
  split; [exact Hwf|].
  exact (proj1 (reregistration_replaces_in_place
                  (@initial_handlers pyclass _ demo_world) C_SanicException
                  resolverBase_demo resolverSpecific_demo Hwf)).
Defined.

(** ** The dispatcher *)

Section DispatchFacts.
Context {Cls : Type} `{PyClasses Cls} {W : Type}.
Context (set_request_id : W -> W) (get_request_id : W -> pyval).
Context (HTTPStatus_phrase : pyval -> option string).
Implicit Types (s : state W) (request : Request.t) (body : pydict).
Implicit Types (reg : registry Cls (@ExceptionHandler Cls W)).
Implicit Types (self : @SanicEndpointObj Cls W) (e : PyException Cls).

(** Every instance of [SanicException] or of a subclass resolves to
    [_sanic_exceptions] in the registry of a freshly imported module. *)
Lemma initial_handlers_resolve e :
  issubclass (exc_class e) SanicException = true ->
  get_exception_handler (@initial_handlers Cls _ W) (ExcInstance e)
  = Some _sanic_exceptions.
Proof.
  intros Hsub. rewrite get_exception_handler_instance.
  unfold initial_handlers, first_match. simpl.
  destruct (decide (exc_class e = SanicException)); [done|].
  simpl. by rewrite Hsub.
Qed.

Lemma initial_handlers_resolve_routing_error (message : string) :
  get_exception_handler (@initial_handlers Cls _ W)
    (ExcInstance (new_RoutingErrorException message))
  = Some _sanic_exceptions.
Proof. apply initial_handlers_resolve, RoutingErrorException_base. Qed.

Lemma run_calls {A} (f : @action Cls W A) s : calls (snd (run f s)) = calls s.
Proof. unfold run. by destruct (f (world s)). Qed.

Lemma invoke_calls {A} (c : call) (f : @action Cls W A) s :
  calls (snd (invoke c f s)) = calls s ++ [c].
Proof. unfold invoke. by rewrite run_calls. Qed.

(** The after-hooks are called in list order, each with the request, up
    to and including the first one that raises. *)
Lemma after_loop_calls (funcs : list (@AfterMethod Cls W)) i request s :
  exists n,
    (n <= List.length funcs)%nat
    /\ calls (snd (after_loop i funcs request s))
       = calls s ++ map (fun k => CallAfter k request) (seq i n)
    /\ match fst (after_loop i funcs request s) with
       | Ok _ => n = List.length funcs
       | Raise _ => (0 < n)%nat
       end.
Proof.
  revert i s. induction funcs as [|func rest IH]; intros i s; simpl.
  - exists 0%nat. simpl. by rewrite app_nil_r.
  - unfold bind.
    pose proof (invoke_calls (CallAfter i request) (func request) s) as Hc.
    destruct (invoke (CallAfter i request) (func request) s) as [[[]|e] s'] eqn:Hi;
      simpl in Hc.
    + destruct (IH (S i) s') as (n & Hn & Hcalls & Hres).
      exists (S n). split_and!; [lia| |].
      * rewrite Hcalls, Hc, <- app_assoc. done.
      * destruct (fst (after_loop (S i) rest request s')); [by f_equal|lia].
    + exists 1%nat. simpl. split_and!; [lia|done|lia].
Qed.

(** The before-hooks make no after-call. *)
Lemma before_loop_calls (funcs : list (@BeforeMethod Cls W)) i request body s :
  exists pre,
    calls (snd (before_loop i funcs request body s)) = calls s ++ pre
    /\ forallb (fun c => negb (is_after_call c)) pre = true.
Proof.
  revert i body s. induction funcs as [|func rest IH]; intros i body s; simpl.
  - exists []. by rewrite app_nil_r.
  - unfold bind.
    pose proof (invoke_calls (CallBefore i request body) (func request body) s) as Hc.
    destruct (invoke (CallBefore i request body) (func request body) s)
      as [[body'|e] s'] eqn:Hi; simpl in Hc.
    + destruct (IH (S i) body' s') as (pre & Hcalls & Hpre).
      exists (CallBefore i request body :: pre). split; [|done].
      rewrite Hcalls, Hc, <- app_assoc. done.
    + exists [CallBefore i request body]. done.
Qed.

Lemma handle_method_exceptions_calls reg e s :
  calls (snd (_handle_method_exceptions get_request_id HTTPStatus_phrase reg e s))
  = calls s.
Proof.
  unfold _handle_method_exceptions.
  destruct (get_exception_handler reg (ExcInstance e)) as [handler|].
  - unfold bind.
    pose proof (run_calls (handler e) s) as Hr.
    destruct (run (handler e) s) as [[tuple|e'] s1]; simpl in Hr; [|done].
    unfold lift. destruct (unpack4 tuple) as [[[[code ec] msg] data]|e']; [|done].
    by rewrite run_calls.
  - by rewrite run_calls.
Qed.

(** C6. When the endpoint has no [method_<verb>] attribute for the
    lower-cased request method, the dispatch returns the JSON response
    "Method Not Allowed" with status 405; no before-hook, verb handler or
    after-hook is called, and the world only sees the new request id. *)
Theorem method_not_allowed reg self request body s :
  PyDict.get ("method_" ++ lower (Request.method request))%string (methods self) = None ->
  _method set_request_id get_request_id HTTPStatus_phrase reg self request body s
  = (Ok (JsonResponse
           (PyDictV [("code", PyInt 405); ("message", PyStr "Method Not Allowed")])
           (PyInt 405)
           [("x-cross-request-id", get_request_id (set_request_id (world s)))]),
     mkState (set_request_id (world s)) (calls s)).
Proof.
  intros Hget. unfold _method, bind, run. simpl. rewrite Hget. done.
Qed.

(** C3 (amended). An exception instance that resolves to the resolver
    registered for [SanicException] at import gets no response from
    [_handle_method_exceptions], which raises instead. When the instance
    has a [status_code] attribute, the resolver returns the 3-tuple
    [(status_code, str(exc), None)] and unpacking it into [code,
    error_code, message, data] raises [ValueError]; when it has none, the
    resolver itself raises [AttributeError]. *)
Theorem sanic_resolver_raises reg e s :
  get_exception_handler reg (ExcInstance e) = Some _sanic_exceptions ->
  match exc_status_code e with
  | Some status_code =>
      _sanic_exceptions e (world s)
      = (Ok (PyTuple [status_code; PyStr (exc_str e); PyNone]), world s)
      /\ _handle_method_exceptions get_request_id HTTPStatus_phrase reg e s
         = (Raise (mkException ValueError
                     "not enough values to unpack (expected 4, got 3)" None),
            s)
  | None =>
      exists msg,
        _handle_method_exceptions get_request_id HTTPStatus_phrase reg e s
        = (Raise (mkException AttributeError msg None), s)
  end.
Proof.
  intros Hres. unfold _handle_method_exceptions. rewrite Hres.
  unfold bind, run, lift, _sanic_exceptions.
  destruct (exc_status_code e) as [status_code|]; simpl.
  - by destruct s.
  - eexists. by destruct s.
Qed.


(** The call log of a dispatch whose verb handler exists: the calls of
    the protected region (before-hooks, verb handler) come first and the
    after-hook calls, in list order, come last, up to and including the
    first after-hook that raises. *)
Theorem after_hooks_always_run reg self request body s func :
  let func_name := ("method_" ++ lower (Request.method request))%string in
  let s0 := mkState (set_request_id (world s)) (calls s) in
  let protected :=
    try_except
      (bind (_before_method self request body)
            (fun body' => invoke (CallVerb func_name request body') (func request body')))
      Exception
      (fun e => _handle_method_exceptions get_request_id HTTPStatus_phrase reg e) in
  let dispatch :=
    _method set_request_id get_request_id HTTPStatus_phrase reg self request body s in
  PyDict.get func_name (methods self) = Some func ->
  exists pre n,
    calls (snd (protected s0)) = calls s ++ pre
    /\ forallb (fun c => negb (is_after_call c)) pre = true
    /\ (n <= List.length (_get_after_methods self))%nat
    /\ calls (snd dispatch)
       = calls s ++ pre ++ map (fun k => CallAfter k request) (seq 0 n)
    /\ snd dispatch = snd (_after_method self request (snd (protected s0)))
    /\ match fst (_after_method self request (snd (protected s0))) with
       | Ok _ =>
           n = List.length (_get_after_methods self)
           /\ fst dispatch = fst (protected s0)
       | Raise e => (0 < n)%nat /\ fst dispatch = Raise e
       end.
Proof.
  intros func_name s0 protected dispatch Hget.
  assert (Hpre : exists pre,
            calls (snd (protected s0)) = calls s ++ pre
            /\ forallb (fun c => negb (is_after_call c)) pre = true).
  { unfold protected, try_except, bind, _before_method.
    destruct (before_loop_calls (_get_before_methods self) 0%nat request body s0)
      as (pre & Hc & Hpre).
    destruct (before_loop 0 (_get_before_methods self) request body s0)
      as [[body'|e] sb]; simpl in Hc.
    - pose proof (invoke_calls (CallVerb func_name request body') (func request body') sb) as Hi.
      destruct (invoke (CallVerb func_name request body') (func request body') sb)
        as [[resp|e] sv]; simpl in Hi.
      + exists (pre ++ [CallVerb func_name request body']). simpl.
        rewrite Hi, Hc, <- app_assoc. split; [done|].
        rewrite forallb_app, Hpre. done.
      + exists (pre ++ [CallVerb func_name request body']).
        split; [|rewrite forallb_app, Hpre; done].
        destruct (issubclass (exc_class e) Exception); simpl.
        * rewrite handle_method_exceptions_calls, Hi, Hc, <- app_assoc. done.
        * rewrite Hi, Hc, <- app_assoc. done.
    - exists pre. split; [|done].
      destruct (issubclass (exc_class e) Exception); simpl.
      + by rewrite handle_method_exceptions_calls.
      + done. }
  destruct Hpre as (pre & Hcalls & Hpre).
  destruct (after_loop_calls (_get_after_methods self) 0%nat request (snd (protected s0)))
    as (n & Hn & Hafter & Hres).
  exists pre, n.
  assert (Hd : dispatch
               = match _after_method self request (snd (protected s0)) with
                 | (Ok _, s2) => (fst (protected s0), s2)
                 | (Raise e', s2) => (Raise e', s2)
                 end).
  { unfold dispatch, _method. unfold bind at 1. unfold run at 1. simpl.
    fold func_name. rewrite Hget.
    unfold try_except_finally, try_finally. fold s0. fold protected.
    by destruct (protected s0). }
  fold (_after_method self request (snd (protected s0))) in Hafter, Hres.
  split_and!; [done|done|done| | |].
  - rewrite Hd. rewrite app_assoc, <- Hcalls, <- Hafter.
    by destruct (_after_method self request (snd (protected s0))) as [[[]|e'] s2].
  - rewrite Hd.
    by destruct (_after_method self request (snd (protected s0))) as [[[]|e'] s2].
  - rewrite Hd.
    by destruct (_after_method self request (snd (protected s0))) as [[[]|e'] s2].
Qed.
End DispatchFacts.

Lemma method_not_allowed_witness :
  PyDict.get ("method_" ++ lower "PROPFIND")%string (methods demo_endpoint) = None
  /\ _method demo_set_request_id demo_get_request_id demo_HTTPStatus_phrase
       initial_handlers demo_endpoint (demo_request "PROPFIND") [] demo_state
     = (Ok (JsonResponse
              (PyDictV [("code", PyInt 405); ("message", PyStr "Method Not Allowed")])
              (PyInt 405) [("x-cross-request-id", PyStr "req-1")]),
        mkState (mkWorld 1 []) []).
Proof.
  split; [reflexivity|].
  apply (method_not_allowed demo_set_request_id demo_get_request_id
           demo_HTTPStatus_phrase initial_handlers demo_endpoint
           (demo_request "PROPFIND") [] demo_state).
  reflexivity.
Defined.

Lemma sanic_resolver_raises_witness :
  let e := new_RoutingErrorException "no route" in
  get_exception_handler initial_handlers (ExcInstance e)
  = Some (@_sanic_exceptions pyclass _ demo_world)
  /\ _handle_method_exceptions demo_get_request_id demo_HTTPStatus_phrase
       initial_handlers e demo_state
     = (Raise (mkException C_ValueError
                 "not enough values to unpack (expected 4, got 3)" None),
        demo_state).
Proof.
  intros e. split; [reflexivity|].
  pose proof (sanic_resolver_raises demo_get_request_id demo_HTTPStatus_phrase
                initial_handlers e demo_state) as Hraise.
  destruct Hraise as [_ Hraise]; [reflexivity|].
  exact Hraise.
Defined.

(** C3, as the spec states it, fails: a [SanicException] built without a
    status code has no [status_code] attribute; it resolves to
    [_sanic_exceptions], which raises [AttributeError] before any tuple is
    returned, so the error is not the unpacking error. *)
Lemma unpacking_error_counterexample :
  let e := mkException C_SanicException "boom" None in
  get_exception_handler initial_handlers (ExcInstance e)
  = Some (@_sanic_exceptions pyclass _ demo_world)
  /\ _sanic_exceptions e (world demo_state)
     = (Raise (mkException C_AttributeError "status_code" None), world demo_state)
  /\ _handle_method_exceptions demo_get_request_id demo_HTTPStatus_phrase
       initial_handlers e demo_state
     = (Raise (mkException C_AttributeError "status_code" None), demo_state)
  /\ _handle_method_exceptions demo_get_request_id demo_HTTPStatus_phrase
       initial_handlers e demo_state
     <> (Raise (mkException C_ValueError
                  "not enough values to unpack (expected 4, got 3)" None),
         demo_state).
Proof. split_and!; [reflexivity|reflexivity|reflexivity|discriminate]. Qed.



Lemma after_hooks_always_run_witness :
  let dispatch :=
    _method demo_set_request_id demo_get_request_id demo_HTTPStatus_phrase
      initial_handlers demo_failing_after_endpoint (demo_request "GET") [] demo_state in
  PyDict.get "method_get" (methods demo_failing_after_endpoint)
  = Some (method_not_impl demo_get_request_id demo_HTTPStatus_phrase)
  /\ exists pre n,
       forallb (fun c => negb (is_after_call c)) pre = true
       /\ (n <= 2)%nat
       /\ calls (snd dispatch)
          = pre ++ map (fun k => CallAfter k (demo_request "GET")) (seq 0 n).
Proof.
  intros dispatch. split; [reflexivity|].
  destruct (after_hooks_always_run demo_set_request_id demo_get_request_id
              demo_HTTPStatus_phrase initial_handlers demo_failing_after_endpoint
              (demo_request "GET") [] demo_state
              (method_not_impl demo_get_request_id demo_HTTPStatus_phrase))
    as (pre & n & _ & Hpre & Hn & Hcalls & _); [reflexivity|].
  exists pre, n. split_and!; [exact Hpre|exact Hn|exact Hcalls].
Defined.

(** The dispatch of [demo_failing_after_endpoint]: the response of the
    verb handler is lost, the exception of the first after-hook comes
    out, and the second after-hook is not called. *)
Example after_hook_exception_propagates :
  _method demo_set_request_id demo_get_request_id demo_HTTPStatus_phrase
    initial_handlers demo_failing_after_endpoint (demo_request "GET") [] demo_state
  = (Raise (mkException C_KeyError "cleanup" None),
     mkState (mkWorld 1 ["before0"; "before1"; "after0"])
       [CallBefore 0 (demo_request "GET") [];
        CallBefore 1 (demo_request "GET") [];
        CallVerb "method_get" (demo_request "GET") [];
        CallAfter 0 (demo_request "GET")]).
Proof. reflexivity. Qed.

(** The dispatch of [demo_failing_endpoint]: both after-hooks run after
    the handler raised. *)
Example after_hooks_run_after_handler_exception :
  snd (_method demo_set_request_id demo_get_request_id demo_HTTPStatus_phrase
         initial_handlers demo_failing_endpoint (demo_request "GET") [] demo_state)
  = mkState (mkWorld 1 ["before0"; "before1"; "get"; "after0"; "after1"])
      [CallBefore 0 (demo_request "GET") [];
       CallBefore 1 (demo_request "GET") [];
       CallVerb "method_get" (demo_request "GET") [];
       CallAfter 0 (demo_request "GET");
       CallAfter 1 (demo_request "GET")].
Proof. reflexivity. Qed.

(** ** Body aggregation *)

Section AggregationFacts.
Context {Cls : Type} `{PyClasses Cls}.
Implicit Types (params args fs files : pydict) (key : string) (request : Request.t).

Lemma getitem_present key (d : pydict) :
  key ∈ PyDict.keys d ->
  exists value, PyDict.get key d = Some value /\ getitem (Cls := Cls) key d = Ok value.
Proof.
  intros Hin. unfold getitem.
  destruct (PyDict.get key d) as [value|] eqn:Hg; [by exists value|].
  apply PyDictFacts.get_None_keys in Hg. done.
Qed.

(** The loop of [params_from_dictparams] over keys of [params]: it ends
    normally, and the keys it visited hold the collapsed values. *)
Lemma params_loop_spec params (ks : list string) args :
  (forall key, key ∈ ks -> key ∈ PyDict.keys params) ->
  exists result,
    params_loop (Cls := Cls) params ks args = Ok result
    /\ forall key,
         PyDict.get key result
         = if decide (key ∈ ks) then collapse_value <$> PyDict.get key params
           else PyDict.get key args.
Proof.
  revert args. induction ks as [|k ks IH]; intros args Hks; simpl.
  - exists args. split; [done|]. intros key.
    destruct (decide (key ∈ [])) as [Hin|]; [by apply elem_of_nil in Hin|done].
  - destruct (getitem_present k params) as (value & Hg & ->); [apply Hks; left|].
    simpl.
    destruct (IH (PyDict.set k (collapse_value value) args)) as (result & -> & Hres).
    { intros key Hin. apply Hks. by right. }
    exists result. split; [done|]. intros key. rewrite Hres.
    destruct (decide (key ∈ ks)) as [Hin|Hnin].
    + rewrite decide_True; [done|by right].
    + rewrite PyDictFacts.get_set.
      destruct (decide (key = k)) as [->|Hne].
      * rewrite decide_True by left. by rewrite Hg.
      * rewrite decide_False; [done|].
        intros Hin. apply elem_of_cons in Hin as [?|?]; done.
Qed.

Lemma params_from_dictparams_get params :
  exists args,
    params_from_dictparams (Cls := Cls) params = Ok args
    /\ forall key, PyDict.get key args = collapse_value <$> PyDict.get key params.
Proof.
  destruct (params_loop_spec params (PyDict.keys params) []) as (args & Hrun & Hget);
    [done|].
  exists args. split; [exact Hrun|]. intros key. rewrite Hget.
  destruct (decide (key ∈ PyDict.keys params)) as [Hin|Hnin]; [done|].
  apply PyDictFacts.get_None_keys in Hnin. by rewrite Hnin.
Qed.

(** C9. The scalar-collapsing step returns a mapping with the same keys
    in which a value that is a list of exactly one element is replaced by
    that element and every other value is kept as it is. It is the step
    applied to the query arguments of a request that is not a POST and to
    the form fields of a multipart/form-data request. *)
Theorem scalar_collapsing params :
  (exists args,
     params_from_dictparams (Cls := Cls) params = Ok args
     /\ (forall key x,
           PyDict.get key params = Some (PyList [x]) -> PyDict.get key args = Some x)
     /\ (forall key value,
           PyDict.get key params = Some value ->
           (forall x, value <> PyList [x]) ->
           PyDict.get key args = Some value)
     /\ (forall key, PyDict.get key params = None -> PyDict.get key args = None))
  /\ params_from_dictparams (Cls := Cls) [("tag", PyList [PyStr "x"])]
     = Ok [("tag", PyStr "x")]
  /\ params_from_dictparams (Cls := Cls) [("tag", PyList [PyStr "x"; PyStr "y"])]
     = Ok [("tag", PyList [PyStr "x"; PyStr "y"])]
  /\ params_from_dictparams (Cls := Cls) [("tag", PyList []); ("n", PyStr "1")]
     = Ok [("tag", PyList []); ("n", PyStr "1")]
  /\ (forall request,
        Request.method request <> "POST" ->
        Request.args request = Some params -> params <> [] ->
        import_body_args (Cls := Cls) request = params_from_dictparams params)
  /\ (forall request,
        str_in "multipart/form-data" (Request.content_type request) = true ->
        Request.form request = Some params -> params <> [] ->
        import_body_form (Cls := Cls) request = params_from_dictparams params).
Proof.
  split_and!.
  - destruct (params_from_dictparams_get params) as (args & Hrun & Hget).
    exists args. split_and!; [done| | |].
    + intros key x Hg. by rewrite Hget, Hg.
    + intros key value Hg Hnot. rewrite Hget, Hg. simpl. f_equal.
      destruct value as [| | | |[|x [|y xs]]| | |]; try done.
      by destruct (Hnot x).
    + intros key Hg. by rewrite Hget, Hg.
  - reflexivity.
  - reflexivity.
  - reflexivity.
  - intros request Hm Ha Hne. unfold import_body_args.
    apply String.eqb_neq in Hm. rewrite Hm, Ha. simpl.
    by destruct params.
  - intros request Hct Hf Hne. unfold import_body_form.
    rewrite Hf, Hct. by destruct params.
Qed.

Lemma project_files_spec (items : list pyval) :
  Forall (fun item => exists type body name, item = PyFile type body name) items ->
  exists ds, project_files (Cls := Cls) items = Ok ds /\ Forall2 projected items ds.
Proof.
  induction 1 as [|item items (type & body & name & ->) _ (ds & Hrun & Hall)]; simpl.
  - exists []. by split.
  - rewrite Hrun. simpl. exists (file_dict type body name :: ds). split; [done|].
    constructor; [|done]. by exists type, body, name.
Qed.

(** The loop of [import_body_files] over keys of [request.files]. *)
Lemma files_loop_spec fs (ks : list string) files :
  (forall key, key ∈ ks -> key ∈ PyDict.keys fs) ->
  lists_hold_files fs ->
  exists result,
    files_loop (Cls := Cls) fs ks files = Ok result
    /\ (forall key, key ∉ ks -> PyDict.get key result = PyDict.get key files)
    /\ (forall key items,
          key ∈ ks -> PyDict.get key fs = Some (PyList items) ->
          exists ds, PyDict.get key result = Some (PyList ds)
                     /\ Forall2 projected items ds)
    /\ (forall key value,
          key ∈ ks -> PyDict.get key fs = Some value ->
          (forall items, value <> PyList items) ->
          PyDict.get key result = Some (PyDictV fs)).
Proof.
  intros Hks Htyped. revert files Hks.
  induction ks as [|k ks IH]; intros files Hks; simpl.
  - exists files. split_and!; [done|done| |].
    + intros key items Hin. by apply elem_of_nil in Hin.
    + intros key value Hin. by apply elem_of_nil in Hin.
  - destruct (getitem_present k fs) as (value & Hg & ->); [apply Hks; left|].
    simpl.
    assert (Hstep : forall out,
      (forall items, value = PyList items ->
         exists ds, out = PyList ds /\ Forall2 projected items ds) ->
      ((forall items, value <> PyList items) -> out = PyDictV fs) ->
      exists result,
        files_loop (Cls := Cls) fs ks (PyDict.set k out files) = Ok result
        /\ (forall key, key ∉ k :: ks -> PyDict.get key result = PyDict.get key files)
        /\ (forall key items,
              key ∈ k :: ks -> PyDict.get key fs = Some (PyList items) ->
              exists ds, PyDict.get key result = Some (PyList ds)
                         /\ Forall2 projected items ds)
        /\ (forall key value0,
              key ∈ k :: ks -> PyDict.get key fs = Some value0 ->
              (forall items, value0 <> PyList items) ->
              PyDict.get key result = Some (PyDictV fs))).
    { intros out Hlist Hother.
      destruct (IH (PyDict.set k out files)) as (result & Hrun & Hout & Hl & Ho).
      { intros key Hin. apply Hks. by right. }
      exists result. split_and!; [done| | |].
      - intros key Hnin. apply not_elem_of_cons in Hnin as [Hne Hnin].
        rewrite Hout by done. by rewrite PyDictFacts.get_set_ne.
      - intros key items Hin Hgk.
        destruct (decide (key ∈ ks)) as [Hin'|Hnin]; [by eapply Hl|].
        apply elem_of_cons in Hin as [->|?]; [|done].
        rewrite Hout, PyDictFacts.get_set_eq by done.
        rewrite Hg in Hgk. injection Hgk as ->.
        destruct (Hlist items eq_refl) as (ds & -> & Hall). by exists ds.
      - intros key value0 Hin Hgk Hnot.
        destruct (decide (key ∈ ks)) as [Hin'|Hnin]; [by eapply Ho|].
        apply elem_of_cons in Hin as [->|?]; [|done].
        rewrite Hout, PyDictFacts.get_set_eq by done.
        rewrite Hg in Hgk. injection Hgk as ->. by rewrite Hother. }
    destruct value as [| | | |items| | |];
      try (apply Hstep; [intros ? [=]|done]).
    destruct (project_files_spec items) as (ds & -> & Hall); [by eapply Htyped|].
    simpl. apply Hstep.
    + intros items' [= <-]. by exists ds.
    + intros Hnot. by destruct (Hnot items).
Qed.

(** The relation [projected] spelled out: the dict of a file item has
    the keys [type], [body] and [name], in this order, with the fields of
    the item. *)
Lemma projected_spelled_out (items ds : list pyval) :
  Forall2 projected items ds ->
  Forall2 (fun item d =>
             exists type body name,
               item = PyFile type body name
               /\ d = PyDictV [("type", PyStr type); ("body", PyBytes body);
                               ("name", PyStr name)])
          items ds.
Proof.
  intros Hall. eapply Forall2_impl; [exact Hall|].
  intros item d (type & body & name & -> & ->).
  by exists type, body, name.
Qed.

(** C10. With a non-empty [request.files], the files step maps each key
    whose value is a list to the list of its file items, each projected to
    the dict [{type: item.type, body: item.body, name: item.name}], and
    each key whose value is not a list to the whole [request.files]
    mapping; when [request.files] is [None] or empty the step contributes
    nothing. *)
Theorem files_aggregation request :
  (Request.files request = None \/ Request.files request = Some [] ->
   import_body_files (Cls := Cls) request = Ok [])
  /\ (forall fs,
        Request.files request = Some fs -> fs <> [] -> lists_hold_files fs ->
        exists files,
          import_body_files (Cls := Cls) request = Ok files
          /\ (forall key items,
                PyDict.get key fs = Some (PyList items) ->
                exists ds,
                  PyDict.get key files = Some (PyList ds)
                  /\ Forall2
                       (fun item d =>
                          exists type body name,
                            item = PyFile type body name
                            /\ d = PyDictV [("type", PyStr type);
                                            ("body", PyBytes body);
                                            ("name", PyStr name)])
                       items ds)
          /\ (forall key value,
                PyDict.get key fs = Some value ->
                (forall items, value <> PyList items) ->
                PyDict.get key files = Some (PyDictV fs))
          /\ (forall key, PyDict.get key fs = None -> PyDict.get key files = None)).
Proof.
  unfold import_body_files. split.
  - by intros [-> | ->].
  - intros fs -> Hne Htyped.
    replace (0 <? PyDict.len fs)%nat with true by (by destruct fs).
    destruct (files_loop_spec fs (PyDict.keys fs) []) as (files & Hrun & Hout & Hl & Ho);
      [done|done|].
    assert (Hin : forall key value, PyDict.get key fs = Some value -> key ∈ PyDict.keys fs).
    { intros key value Hg.
      destruct (decide (key ∈ PyDict.keys fs)) as [|Hnin]; [done|].
      apply PyDictFacts.get_None_keys in Hnin. congruence. }
    exists files. split_and!; [done| | |].
    + intros key items Hg.
      destruct (Hl key items) as (ds & Hget & Hall); [by eapply Hin|done|].
      exists ds. split; [done|]. by apply projected_spelled_out.
    + intros key value Hg Hnot. eapply Ho; [by eapply Hin|done|done].
    + intros key Hg. rewrite Hout; [done|].
      by apply PyDictFacts.get_None_keys.
Qed.

Lemma update_within_id (mi acc : pydict) :
  (forall key, key ∈ PyDict.keys mi -> key = "id") ->
  acc = [] \/ (exists v, acc = [("id", v)]) ->
  PyDict.update acc mi = [] \/ (exists v, PyDict.update acc mi = [("id", v)]).
Proof.
  unfold PyDict.update. revert acc.
  induction mi as [|[k v] mi IH]; intros acc Hkeys Hacc; simpl; [done|].
  apply IH.
  - intros key Hin. apply Hkeys. by right.
  - rewrite (Hkeys k) by left.
    destruct Hacc as [->|(v0 & ->)]; right; by exists v.
Qed.

(** C8 (amended). On a POST with a JSON content type and JSON body
    [{id: "2"}], the query arguments contribute nothing, whatever they
    are, and the JSON body is merged; the aggregated body, before ['auth']
    is set, is [{id: "2"}] when no other source contributes a key: the
    path parameters, if any, only give [id], which the JSON body
    overrides, and the files, the form fields and the [x-] headers
    contribute nothing. *)
Theorem post_json_ignores_query_args request :
  Request.method request = "POST" ->
  str_in "application/json" (Request.content_type request) = true ->
  Request.json request = Some [("id", PyStr "2")] ->
  import_body_args (Cls := Cls) request = Ok []
  /\ import_body_json request = [("id", PyStr "2")]
  /\ ((forall key, key ∈ PyDict.keys (import_body_match_info request) -> key = "id") ->
      import_body_files (Cls := Cls) request = Ok [] ->
      import_body_form (Cls := Cls) request = Ok [] ->
      import_body_headers (Cls := Cls) request = Ok [] ->
      aggregate_body (Cls := Cls) request = Ok [("id", PyStr "2")]).
Proof.
  intros Hm Hct Hj.
  assert (Hargs : import_body_args (Cls := Cls) request = Ok []).
  { unfold import_body_args. by rewrite Hm. }
  assert (Hjson : import_body_json request = [("id", PyStr "2")]).
  { unfold import_body_json. by rewrite Hct, Hj. }
  split_and!; [done|done|].
  intros Hmi Hfiles Hform Hheaders. unfold aggregate_body.
  rewrite Hargs, Hfiles, Hform, Hheaders, Hjson. simpl. f_equal.
  destruct (update_within_id (import_body_match_info request) []) as [->|(v & ->)];
    [done|by left|done|done].
Qed.
End AggregationFacts.

(** C8, as the spec states it, fails: a POST with a JSON content type,
    JSON body [{id: "2"}] and a query string, which also carries the
    header [X-Trace], aggregates to a body with two keys. *)
Lemma post_body_counterexample :
  Request.method demo_post_trace_request = "POST"
  /\ str_in "application/json" (Request.content_type demo_post_trace_request) = true
  /\ Request.json demo_post_trace_request = Some [("id", PyStr "2")]
  /\ Request.args demo_post_trace_request = Some [("id", PyList [PyStr "3"])]
  /\ aggregate_body (Cls := pyclass) demo_post_trace_request
     = Ok [("id", PyStr "2"); ("X-Trace", PyStr "abc")]
  /\ aggregate_body (Cls := pyclass) demo_post_trace_request
     <> Ok [("id", PyStr "2")].
Proof. split_and!; [reflexivity..|discriminate]. Qed.

Lemma post_json_ignores_query_args_witness :
  Request.method demo_post_request = "POST"
  /\ Request.args demo_post_request = Some [("id", PyList [PyStr "3"])]
  /\ aggregate_body (Cls := pyclass) demo_post_request = Ok [("id", PyStr "2")].
Proof.
  split_and!; [reflexivity|reflexivity|].
  destruct (post_json_ignores_query_args (Cls := pyclass) demo_post_request)
    as (_ & _ & Hbody); [reflexivity|reflexivity|reflexivity|].
  apply Hbody; [|reflexivity|reflexivity|reflexivity].
  intros key Hin. apply list_elem_of_singleton in Hin. exact Hin.
Defined.

(** The files step on [demo_upload_request]: the two files under [docs]
    are projected, and [avatar], whose value is not a list, holds the
    whole of [request.files]. *)
Example files_aggregation_demo :
  import_body_files (Cls := pyclass) demo_upload_request
  = Ok [("docs",
         PyList [PyDictV [("type", PyStr "text/plain"); ("body", PyBytes ["a"%char]);
                          ("name", PyStr "a.txt")];
                 PyDictV [("type", PyStr "image/png"); ("body", PyBytes ["b"%char]);
                          ("name", PyStr "b.png")]]);
        ("avatar", PyDictV demo_files)].
Proof. reflexivity. Qed.

Lemma files_aggregation_witness :
  lists_hold_files demo_files
  /\ exists files,
       import_body_files (Cls := pyclass) demo_upload_request = Ok files
       /\ PyDict.get "docs" files
          = Some (PyList
                    [PyDictV [("type", PyStr "text/plain"); ("body", PyBytes ["a"%char]);
                              ("name", PyStr "a.txt")];
                     PyDictV [("type", PyStr "image/png"); ("body", PyBytes ["b"%char]);
                              ("name", PyStr "b.png")]])
       /\ PyDict.get "avatar" files = Some (PyDictV demo_files).
Proof.
  assert (Htyped : lists_hold_files demo_files).
  { intros key items Hg. unfold demo_files in Hg. simpl in Hg.
    destruct (decide (key = "docs")).
    - injection Hg as <-.
      repeat constructor; eexists _, _, _; reflexivity.
    - destruct (decide (key = "avatar")); discriminate Hg. }
  split; [exact Htyped|].
  destruct (files_aggregation (Cls := pyclass) demo_upload_request) as [_ Hfiles].
  destruct (Hfiles demo_files) as (files & Hrun & Hlist & Hother & _);
    [reflexivity|discriminate|exact Htyped|].
  exists files. split_and!; [exact Hrun| |].
  - destruct (Hlist "docs" [PyFile "text/plain" ["a"%char] "a.txt";
                            PyFile "image/png" ["b"%char] "b.png"])
      as (ds & Hget & Hall); [reflexivity|].
    rewrite Hget. do 2 f_equal.
    apply Forall2_cons_inv_l in Hall as (d1 & ds1 & (t1 & b1 & n1 & Hi1 & ->) & Hall & ->).
    apply Forall2_cons_inv_l in Hall as (d2 & ds2 & (t2 & b2 & n2 & Hi2 & ->) & Hall & ->).
    apply Forall2_nil_inv_l in Hall as ->.
    injection Hi1 as <- <- <-. injection Hi2 as <- <- <-. reflexivity.
  - apply (Hother "avatar" (PyFile "image/png" ["c"%char] "c.png")); [reflexivity|].
    intros items. discriminate.
Defined.

(** With the nine verb handlers of the base class, DELETE has a handler:
    the dispatch answers 500 "DELETE Not Impl", not 405. *)
Example base_class_handles_delete :
  fst (_method demo_set_request_id demo_get_request_id demo_HTTPStatus_phrase
         initial_handlers
         (SanicEndpoint demo_get_request_id demo_HTTPStatus_phrase)
         (demo_request "DELETE") [] demo_state)
  = Ok (JsonResponse
          (PyDictV [("code", PyInt 500); ("message", PyStr "DELETE Not Impl")])
          (PyInt 500) [("x-cross-request-id", PyStr "req-1")]).
Proof. reflexivity. Qed.

(** An unregistered subclass resolves to the entry of its first
    registered ancestor, with the resolver that entry holds now. *)
Example ancestor_entry_holds_latest_resolver :
  get_exception_handler
    (replay [([C_SanicException], resolverBase_demo);
             ([C_RoutingErrorException; C_SanicException], resolverSpecific_demo)]
       [])
    (ExcInstance (mkException C_NotFound "missing" (Some (PyInt 404))))
  = Some resolverSpecific_demo.
Proof. reflexivity. Qed.

(** [handle] on the health endpoint: the body reaches the verb handler
    with ['auth'] set, and the handler's raw response comes back. *)
Example health_endpoint_get :
  handle demo_set_request_id demo_get_request_id demo_HTTPStatus_phrase
    initial_handlers (HealthEndpoint demo_get_request_id demo_HTTPStatus_phrase)
    (demo_request "GET") PyNone demo_state
  = (Ok (RawResponse (list_ascii_of_string "Health") (PyInt 200)
           [("x-cross-request-id", PyStr "req-1")] "application/octet-stream"),
     mkState (mkWorld 1 [])
       [CallVerb "method_get" (demo_request "GET") [("auth", PyNone)]]).
Proof. reflexivity. Qed.

(** [handle] on a POST with path parameter, JSON body and query string:
    the handler receives [{id: "2", auth: None}]. *)
Example health_endpoint_post_body :
  calls (snd (handle demo_set_request_id demo_get_request_id demo_HTTPStatus_phrase
                initial_handlers
                (HealthEndpoint demo_get_request_id demo_HTTPStatus_phrase)
                demo_post_request PyNone demo_state))
  = [CallVerb "method_post" demo_post_request [("id", PyStr "2"); ("auth", PyNone)]].
Proof. reflexivity. Qed.

(** * Further properties of the registry *)

Section RegistryMore.
Context {Cls : Type} `{PyClasses Cls} {Handler : Type}.
Implicit Types (reg : registry Cls Handler) (e : PyException Cls).

Lemma scan_handlers_default (c : Cls) (d : Handler) (items : list (Cls * Handler)) :
  scan_handlers (ExcType c) c (Some d) items = Some d.
Proof. induction items as [|[key handler] rest IH]; simpl; [done|apply IH]. Qed.

Lemma scan_handlers_class (c : Cls) (items : list (Cls * Handler)) :
  scan_handlers (ExcType c) c None items
  = snd <$> List.find (fun kv => issubclass c (fst kv)) items.
Proof.
  induction items as [|[key handler] rest IH]; simpl; [done|].
  destruct (issubclass c key); [apply scan_handlers_default|apply IH].
Qed.

(** X1. Passing an exception class instead of an instance gives the
    same resolver: the exact entry when the class is registered, else the
    first entry in insertion order that names an ancestor. *)
Theorem class_resolves_like_instance reg e :
  get_exception_handler reg (ExcType (exc_class e))
  = get_exception_handler reg (ExcInstance e).
Proof.
  rewrite get_exception_handler_instance.
  unfold get_exception_handler, PyDict.contains. simpl.
  destruct (PyDict.get (exc_class e) reg); [done|].
  apply scan_handlers_class.
Qed.

Lemma first_match_None e (items : list (Cls * Handler)) :
  first_match e items = None
  <-> forall k, k ∈ PyDict.keys items -> issubclass (exc_class e) k = false.
Proof.
  unfold first_match. induction items as [|[key handler] rest IH]; simpl.
  - split; [|done]. intros _ k Hk. by apply elem_of_nil in Hk.
  - destruct (issubclass (exc_class e) key) eqn:Hsub; simpl.
    + split; [done|]. intros Hall. rewrite Hall in Hsub by left. done.
    + rewrite IH. split.
      * intros Hall k Hk. apply elem_of_cons in Hk as [->|Hk]; auto.
      * intros Hall k Hk. apply Hall. by right.
Qed.

(** X2. An exception instance has no resolver exactly when no registered
    class is its class or an ancestor of its class; in particular nothing
    resolves in an empty registry. *)
Theorem unresolved_iff_no_ancestor reg e :
  get_exception_handler reg (ExcInstance e) = None
  <-> forall k, k ∈ PyDict.keys reg -> issubclass (exc_class e) k = false.
Proof.
  rewrite get_exception_handler_instance.
  destruct (PyDict.get (exc_class e) reg) as [f|] eqn:Hg.
  - split; [done|]. intros Hall.
    assert (Hin : exc_class e ∈ PyDict.keys reg).
    { destruct (decide (exc_class e ∈ PyDict.keys reg)) as [|Hn]; [done|].
      apply PyDictFacts.get_None_keys in Hn. congruence. }
    apply Hall in Hin. rewrite issubclass_refl in Hin. done.
  - apply first_match_None.
Qed.

Lemma get_register (exceptions : list Cls) (func : Handler) reg (c : Cls) :
  PyDict.get c (register_exception_handler exceptions func reg)
  = if decide (c ∈ exceptions) then Some func else PyDict.get c reg.
Proof.
  unfold register_exception_handler. revert reg.
  induction exceptions as [|x xs IH]; intros reg; simpl.
  - destruct (decide (c ∈ [])) as [Hin|]; [by apply elem_of_nil in Hin|done].
  - rewrite IH. destruct (decide (c ∈ xs)) as [Hin|Hnin].
    + rewrite decide_True; [done|by right].
    + rewrite PyDictFacts.get_set. destruct (decide (c = x)) as [->|Hne].
      * by rewrite decide_True by left.
      * rewrite decide_False; [done|].
        intros Hin. apply elem_of_cons in Hin as [?|?]; done.
Qed.

(** X3. One use of the decorator with several classes makes every one of
    them resolve to the decorated function, by exact match; the resolver
    stored for any class it does not name is left as it was, and so is
    the resolution of instances of such exactly registered classes. *)
Theorem register_then_resolve (exceptions : list Cls) (func : Handler) reg :
  let reg' := register_exception_handler exceptions func reg in
  (forall e, exc_class e ∈ exceptions ->
     get_exception_handler reg' (ExcInstance e) = Some func)
  /\ (forall c, c ∉ exceptions -> PyDict.get c reg' = PyDict.get c reg)
  /\ (forall e f, exc_class e ∉ exceptions ->
        PyDict.get (exc_class e) reg = Some f ->
        get_exception_handler reg' (ExcInstance e) = Some f).
Proof.
  intros reg'. unfold reg'. split_and!.
  - intros e Hin. rewrite get_exception_handler_instance, get_register.
    by rewrite decide_True.
  - intros c Hnin. rewrite get_register. by rewrite decide_False.
  - intros e f Hnin Hg. rewrite get_exception_handler_instance, get_register.
    by rewrite decide_False, Hg.
Qed.

Lemma set_same (c : Cls) (f : Handler) reg :
  PyDict.get c reg = Some f -> PyDict.set c f reg = reg.
Proof.
  induction reg as [|[k v] reg IH]; simpl; [done|].
  destruct (decide (c = k)) as [->|Hne].
  - by intros [= ->].
  - intros Hg. by rewrite IH.
Qed.

Lemma register_same (exceptions : list Cls) (func : Handler) reg :
  (forall c, c ∈ exceptions -> PyDict.get c reg = Some func) ->
  register_exception_handler exceptions func reg = reg.
Proof.
  unfold register_exception_handler. revert reg.
  induction exceptions as [|x xs IH]; intros reg Hall; simpl; [done|].
  rewrite set_same by (apply Hall; left).
  apply IH. intros c Hc. apply Hall. by right.
Qed.

(** X4. Registering the same function for the same classes a second time
    changes nothing: neither the resolvers nor the iteration order. *)
Theorem register_twice (exceptions : list Cls) (func : Handler) reg :
  register_exception_handler exceptions func
    (register_exception_handler exceptions func reg)
  = register_exception_handler exceptions func reg.
Proof.
  apply register_same. intros c Hc. rewrite get_register. by rewrite decide_True.
Qed.
End RegistryMore.

(** * Further properties of the body aggregation *)

Module PyDictMore.
Section More.
Context {K V : Type} `{EqDecision K}.
Implicit Types (d other : PyDict.t K V) (k : K) (v : V).

Lemma get_app k d other :
  PyDict.get k (d ++ other)
  = match PyDict.get k d with
    | Some v => Some v
    | None => PyDict.get k other
    end.
Proof.
  induction d as [|[k' v'] d IH]; simpl; [done|].
  by destruct (decide (k = k')).
Qed.

(** [d.update(other)]: the last assignment of a key decides. *)
Lemma get_update_rev k d other :
  PyDict.get k (PyDict.update d other)
  = match PyDict.get k (rev other) with
    | Some v => Some v
    | None => PyDict.get k d
    end.
Proof.
  unfold PyDict.update. revert d.
  induction other as [|[k' v'] other IH]; intros d; simpl; [done|].
  rewrite IH, get_app. destruct (PyDict.get k (rev other)); [done|].
  simpl. rewrite PyDictFacts.get_set. by destruct (decide (k = k')).
Qed.

Lemma wf_rev d : PyDict.wf d -> PyDict.wf (rev d).
Proof.
  unfold PyDict.wf, PyDict.keys. rewrite map_rev.
  intros Hnd. by apply NoDup_ListNoDup, List.NoDup_rev, NoDup_ListNoDup.
Qed.

Lemma get_rev_wf k d : PyDict.wf d -> PyDict.get k (rev d) = PyDict.get k d.
Proof.
  intros Hwf. destruct (PyDict.get k d) as [v|] eqn:Hg.
  - apply PyDictFacts.elem_get_wf; [by apply wf_rev|].
    apply list_elem_of_In, in_rev. rewrite rev_involutive.
    apply list_elem_of_In. by apply PyDictFacts.get_Some_elem.
  - apply PyDictFacts.get_None_keys. apply PyDictFacts.get_None_keys in Hg.
    unfold PyDict.keys in *. rewrite map_rev. intros Hin. apply Hg.
    apply list_elem_of_In. apply list_elem_of_In in Hin. by apply in_rev.
Qed.

(** With unique keys in [other], its entries win over those of [d]. *)
Lemma get_update k d other :
  PyDict.wf other ->
  PyDict.get k (PyDict.update d other)
  = match PyDict.get k other with
    | Some v => Some v
    | None => PyDict.get k d
    end.
Proof. intros Hwf. by rewrite get_update_rev, get_rev_wf. Qed.

Lemma wf_nil : PyDict.wf ([] : PyDict.t K V).
Proof. apply NoDup_nil_2. Qed.
End More.
End PyDictMore.

Section AggregationMore.
Context {Cls : Type} `{PyClasses Cls}.
Implicit Types (params args fs files : pydict) (key : string) (request : Request.t).

Lemma params_loop_wf params (ks : list string) args result :
  params_loop (Cls := Cls) params ks args = Ok result ->
  PyDict.wf args -> PyDict.wf result.
Proof.
  revert args. induction ks as [|k ks IH]; intros args; simpl.
  - by intros [= ->].
  - destruct (getitem k params) as [value|e]; simpl; [|done].
    intros Hrun Hwf. eapply IH; [done|]. by apply PyDictFacts.wf_set.
Qed.

Lemma files_loop_wf fs (ks : list string) files result :
  files_loop (Cls := Cls) fs ks files = Ok result ->
  PyDict.wf files -> PyDict.wf result.
Proof.
  revert files. induction ks as [|k ks IH]; intros files; simpl.
  - by intros [= ->].
  - destruct (getitem k fs) as [value|e]; simpl; [|done].
    destruct value as [| | | |items| | |];
      try (intros Hrun Hwf; eapply IH; [done|]; by apply PyDictFacts.wf_set).
    destruct (project_files items) as [ds|e]; simpl; [|done].
    intros Hrun Hwf. eapply IH; [done|]. by apply PyDictFacts.wf_set.
Qed.

(** The loop of [import_body_headers] over keys of [request.headers]. *)
Lemma headers_loop_spec (rh : pydict) (ks : list string) (acc : pydict) :
  (forall key, key ∈ ks -> key ∈ PyDict.keys rh) ->
  exists result,
    headers_loop (Cls := Cls) rh ks acc = Ok result
    /\ (PyDict.wf acc -> PyDict.wf result)
    /\ forall key,
         PyDict.get key result
         = if decide (key ∈ ks) then
             (if is_x_header key then PyDict.get key rh else PyDict.get key acc)
           else PyDict.get key acc.
Proof.
  revert acc. induction ks as [|k ks IH]; intros acc Hks; simpl.
  - exists acc. split_and!; [done|done|]. intros key.
    destruct (decide (key ∈ [])) as [Hin|]; [by apply elem_of_nil in Hin|done].
  - fold (is_x_header k).
    assert (Hks' : forall key, key ∈ ks -> key ∈ PyDict.keys rh).
    { intros key Hin. apply Hks. by right. }
    destruct (is_x_header k) eqn:Hx.
    + destruct (getitem_present (Cls := Cls) k rh) as (v & Hg & ->); [apply Hks; left|].
      simpl. destruct (IH (PyDict.set k v acc) Hks') as (result & -> & Hwf & Hres).
      exists result. split_and!; [done| |].
      * intros Hacc. by apply Hwf, PyDictFacts.wf_set.
      * intros key. rewrite Hres.
        destruct (decide (key ∈ ks)) as [Hin|Hnin].
        -- rewrite decide_True by (by right).
           destruct (is_x_header key) eqn:Hxk; [done|].
           rewrite PyDictFacts.get_set.
           destruct (decide (key = k)) as [->|]; [congruence|done].
        -- rewrite PyDictFacts.get_set.
           destruct (decide (key = k)) as [->|Hne].
           ++ rewrite decide_True by left. by rewrite Hx, Hg.
           ++ rewrite decide_False; [done|].
              intros Hin. apply elem_of_cons in Hin as [?|?]; done.
    + destruct (IH acc Hks') as (result & -> & Hwf & Hres).
      exists result. split_and!; [done|done|].
      intros key. rewrite Hres.
      destruct (decide (key ∈ ks)) as [Hin|Hnin].
      * by rewrite decide_True by (by right).
      * destruct (decide (key ∈ k :: ks)) as [Hin|]; [|done].
        apply elem_of_cons in Hin as [->|?]; [|done]. by rewrite Hx.
Qed.

(** X5. [import_body_headers] never fails and keeps exactly the headers
    whose name starts with [x-] in any letter case, under their original
    name and with their value; every other header is dropped. *)
Theorem x_headers_only request :
  exists headers,
    import_body_headers (Cls := Cls) request = Ok headers
    /\ forall key,
         PyDict.get key headers
         = if is_x_header key then PyDict.get key (Request.headers request)
           else None.
Proof.
  unfold import_body_headers.
  destruct (headers_loop_spec (Request.headers request)
              (PyDict.keys (Request.headers request)) [])
    as (headers & Hrun & _ & Hget); [done|].
  exists headers. split; [done|]. intros key. rewrite Hget.
  destruct (decide (key ∈ PyDict.keys (Request.headers request))) as [Hin|Hnin].
  - by destruct (is_x_header key).
  - apply PyDictFacts.get_None_keys in Hnin. rewrite Hnin.
    by destruct (is_x_header key).
Qed.

Lemma import_body_headers_ok request :
  exists h, import_body_headers (Cls := Cls) request = Ok h /\ PyDict.wf h.
Proof.
  unfold import_body_headers.
  destruct (headers_loop_spec (Request.headers request)
              (PyDict.keys (Request.headers request)) [])
    as (h & Hrun & Hwf & _); [done|].
  exists h. split; [done|]. apply Hwf, PyDictMore.wf_nil.
Qed.

Lemma params_from_dictparams_ok params :
  exists args,
    params_from_dictparams (Cls := Cls) params = Ok args /\ PyDict.wf args.
Proof.
  destruct (params_from_dictparams_get (Cls := Cls) params) as (args & Hrun & _).
  exists args. split; [done|].
  eapply params_loop_wf; [exact Hrun|apply PyDictMore.wf_nil].
Qed.

Lemma import_body_args_ok request :
  exists a, import_body_args (Cls := Cls) request = Ok a /\ PyDict.wf a.
Proof.
  unfold import_body_args.
  destruct (negb _); [|by exists []; split; [|apply PyDictMore.wf_nil]].
  destruct (Request.args request) as [a|];
    [|by exists []; split; [|apply PyDictMore.wf_nil]].
  destruct (0 <? PyDict.len a)%nat;
    [|by exists []; split; [|apply PyDictMore.wf_nil]].
  apply params_from_dictparams_ok.
Qed.

Lemma import_body_form_ok request :
  option_wf (Request.form request) ->
  exists fm, import_body_form (Cls := Cls) request = Ok fm /\ PyDict.wf fm.
Proof.
  unfold import_body_form, option_wf.
  destruct (Request.form request) as [f|];
    [|by exists []; split; [|apply PyDictMore.wf_nil]].
  intros Hwf.
  destruct (0 <? PyDict.len f)%nat;
    [|by exists []; split; [|apply PyDictMore.wf_nil]].
  destruct (str_in _ _); [apply params_from_dictparams_ok|by exists f].
Qed.

Lemma import_body_files_ok request :
  (forall fs, Request.files request = Some fs -> lists_hold_files fs) ->
  exists f, import_body_files (Cls := Cls) request = Ok f /\ PyDict.wf f.
Proof.
  unfold import_body_files. intros Htyped.
  destruct (Request.files request) as [fs|];
    [|by exists []; split; [|apply PyDictMore.wf_nil]].
  destruct (0 <? PyDict.len fs)%nat;
    [|by exists []; split; [|apply PyDictMore.wf_nil]].
  destruct (files_loop_spec (Cls := Cls) fs (PyDict.keys fs) [])
    as (files & Hrun & _); [done|by apply Htyped|].
  exists files. split; [done|].
  eapply files_loop_wf; [exact Hrun|apply PyDictMore.wf_nil].
Qed.

(** X6. On a request whose mappings have unique keys and whose file lists
    hold file items, the aggregation does not fail, and a key of the body
    holds the value of the last source that has it, in the order path
    parameters, JSON body, query arguments, files, form fields, [x-]
    headers. *)
Theorem aggregation_precedence request :
  request_wf request ->
  exists a f fm h body,
    import_body_args (Cls := Cls) request = Ok a
    /\ import_body_files (Cls := Cls) request = Ok f
    /\ import_body_form (Cls := Cls) request = Ok fm
    /\ import_body_headers (Cls := Cls) request = Ok h
    /\ aggregate_body (Cls := Cls) request = Ok body
    /\ forall key,
         PyDict.get key body
         = first_of key [h; fm; f; a; import_body_json request;
                         import_body_match_info request].
Proof.
  intros (Hmi & Hj & Hform & Hfiles).
  destruct (import_body_args_ok request) as (a & Ha & Hwa).
  destruct (import_body_files_ok request Hfiles) as (f & Hf & Hwf).
  destruct (import_body_form_ok request Hform) as (fm & Hfm & Hwfm).
  destruct (import_body_headers_ok request) as (h & Hh & Hwh).
  exists a, f, fm, h. eexists. split_and!; [done|done|done|done| |].
  - unfold aggregate_body. rewrite Ha, Hf, Hfm, Hh. simpl. reflexivity.
  - intros key. simpl.
    assert (Hwmi : PyDict.wf (import_body_match_info request)).
    { unfold import_body_match_info.
      destruct (Request.match_info request); [done|apply PyDictMore.wf_nil]. }
    assert (Hwj : PyDict.wf (import_body_json request)).
    { unfold import_body_json. destruct (str_in _ _); [|apply PyDictMore.wf_nil].
      destruct (Request.json request); [done|apply PyDictMore.wf_nil]. }
    rewrite !PyDictMore.get_update by done. simpl.
    repeat (match goal with |- context [match ?x with _ => _ end] => destruct x end);
      done.
Qed.
End AggregationMore.

(** * Further properties of the dispatcher *)

Section DispatchMore.
Context {Cls : Type} `{PyClasses Cls} {W : Type}.
Context (set_request_id : W -> W) (get_request_id : W -> pyval).
Context (HTTPStatus_phrase : pyval -> option string).
Implicit Types (s : state W) (request : Request.t) (body : pydict).
Implicit Types (reg : registry Cls (@ExceptionHandler Cls W)).
Implicit Types (self : @SanicEndpointObj Cls W) (e : PyException Cls).

Lemma before_loop_trace (funcs : list (@BeforeMethod Cls W)) i request body s :
  exists bodies,
    calls (snd (before_loop i funcs request body s))
    = calls s ++ before_calls i request bodies
    /\ (List.length bodies <= List.length funcs)%nat
    /\ (funcs <> [] -> head bodies = Some body)
    /\ match fst (before_loop i funcs request body s) with
       | Ok _ => List.length bodies = List.length funcs
       | Raise _ => (0 < List.length bodies)%nat
       end.
Proof.
  revert i body s. induction funcs as [|func rest IH]; intros i body s; simpl.
  - exists []. simpl. by rewrite app_nil_r.
  - unfold bind.
    pose proof (invoke_calls (CallBefore i request body) (func request body) s) as Hc.
    destruct (invoke (CallBefore i request body) (func request body) s)
      as [[body'|e] s'] eqn:Hi; simpl in Hc.
    + destruct (IH (S i) body' s') as (bodies & Hcalls & Hlen & _ & Hres).
      exists (body :: bodies). simpl. split_and!; [|lia|done|].
      * rewrite Hcalls, Hc, <- app_assoc. done.
      * destruct (fst (before_loop (S i) rest request body' s')); [by f_equal|lia].
    + exists [body]. simpl. split_and!; [done|lia|done|lia].
Qed.

Lemma after_method_trace self request s :
  exists n,
    (n <= List.length (_get_after_methods self))%nat
    /\ calls (snd (_after_method self request s)) = calls s ++ after_calls n request
    /\ match fst (_after_method self request s) with
       | Ok _ => n = List.length (_get_after_methods self)
       | Raise _ => (0 < n)%nat
       end.
Proof. apply after_loop_calls. Qed.

(** The dispatch when the endpoint has the verb handler [func]. *)
Lemma method_unfold reg self request body s func :
  PyDict.get ("method_" ++ lower (Request.method request))%string (methods self)
  = Some func ->
  _method set_request_id get_request_id HTTPStatus_phrase reg self request body s
  = try_finally
      (try_except
         (bind (_before_method self request body)
               (fun body' =>
                  invoke (CallVerb ("method_" ++ lower (Request.method request))%string
                            request body')
                         (func request body')))
         Exception
         (fun e => _handle_method_exceptions get_request_id HTTPStatus_phrase reg e))
      (_after_method self request)
      (mkState (set_request_id (world s)) (calls s)).
Proof.
  intros Hget. unfold _method. unfold bind at 1. unfold run at 1. simpl.
  rewrite Hget. done.
Qed.

Lemma before_loop_applied (funcs : list (@BeforeMethod Cls W)) i request body s :
  exists r w' bodies,
    before_hooks_applied request funcs body (world s) r w' bodies
    /\ before_loop i funcs request body s
       = (r, mkState w' (calls s ++ before_calls i request bodies)).
Proof.
  revert i body s. induction funcs as [|func rest IH]; intros i body s; simpl.
  - exists (Ok body), (world s), []. split; [constructor|].
    unfold ret. simpl. rewrite app_nil_r. by destruct s.
  - unfold bind, invoke, run. simpl.
    destruct (func request body (world s)) as [[body1|e] w1] eqn:Hf.
    + destruct (IH (S i) body1 (mkState w1 (calls s ++ [CallBefore i request body])))
        as (r & w' & bodies & Happ & Hrun).
      exists r, w', (body :: bodies). split.
      * by eapply before_applied_return.
      * rewrite Hrun. simpl. by rewrite <- app_assoc.
    + exists (Raise e), w1, [body]. split; [by apply before_applied_raise|done].
Qed.

(** X7. [_before_method] applies the before-hooks in list order, each to
    the request and to the body the previous one left, in the world the
    previous one left, and stops with the first hook that raises: the
    hooks after it are neither applied nor logged. Its outcome is the body
    the last hook left, or that exception. *)
Theorem before_hooks_in_order self request body s :
  exists r w' bodies,
    before_hooks_applied request (_get_before_methods self) body (world s) r w' bodies
    /\ _before_method self request body s
       = (r, mkState w' (calls s ++ before_calls 0 request bodies)).
Proof. apply before_loop_applied. Qed.

(** X8. When a before-hook raises, the verb handler is not called: the
    calls of the dispatch are before-hook calls followed by after-hook
    calls, and the outcome is that of the exception handling (or the
    exception itself when it is not an [Exception]), unless an after-hook
    raises. *)
Theorem before_hook_exception_skips_handler reg self request body s func e s1 :
  let s0 := mkState (set_request_id (world s)) (calls s) in
  let dispatch :=
    _method set_request_id get_request_id HTTPStatus_phrase reg self request body s in
  let handled :=
    if issubclass (exc_class e) Exception
    then _handle_method_exceptions get_request_id HTTPStatus_phrase reg e s1
    else (Raise e, s1) in
  PyDict.get ("method_" ++ lower (Request.method request))%string (methods self)
  = Some func ->
  _before_method self request body s0 = (Raise e, s1) ->
  dispatch
  = match _after_method self request (snd handled) with
    | (Ok _, s3) => (fst handled, s3)
    | (Raise e', s3) => (Raise e', s3)
    end
  /\ exists bodies n,
       calls (snd dispatch)
       = calls s ++ before_calls 0 request bodies ++ after_calls n request.
Proof.
  intros s0 dispatch handled Hget Hraise.
  assert (Hd : dispatch
               = match _after_method self request (snd handled) with
                 | (Ok _, s3) => (fst handled, s3)
                 | (Raise e', s3) => (Raise e', s3)
                 end).
  { unfold dispatch. rewrite (method_unfold reg self request body s func Hget).
    unfold try_finally, try_except, bind. fold s0. rewrite Hraise.
    unfold handled. by destruct (issubclass (exc_class e) Exception);
      [destruct (_handle_method_exceptions _ _ _ _ _)|]. }
  split; [exact Hd|].
  destruct (before_loop_trace (_get_before_methods self) 0%nat request body s0)
    as (bodies & Hb & _).
  fold (_before_method self request body s0) in Hb. rewrite Hraise in Hb. simpl in Hb.
  assert (Hh : calls (snd handled) = calls s1).
  { unfold handled. destruct (issubclass (exc_class e) Exception); [|done].
    apply handle_method_exceptions_calls. }
  destruct (after_method_trace self request (snd handled)) as (n & _ & Ha & _).
  exists bodies, n. rewrite Hd, app_assoc, <- Hb, <- Hh, <- Ha.
  by destruct (_after_method self request (snd handled)) as [[[]|e'] s3].
Qed.

(** X9. When the before-hooks and the verb handler return, the registry
    plays no part: the dispatch returns the response of the verb handler
    once the after-hooks have run, whatever is registered. Every
    before-hook was called, then the verb handler once, then after-hooks
    only. *)
Theorem success_ignores_registry reg self request body s func response s1 :
  let func_name := ("method_" ++ lower (Request.method request))%string in
  let s0 := mkState (set_request_id (world s)) (calls s) in
  let dispatch :=
    _method set_request_id get_request_id HTTPStatus_phrase reg self request body s in
  PyDict.get func_name (methods self) = Some func ->
  bind (_before_method self request body)
       (fun body' => invoke (CallVerb func_name request body') (func request body')) s0
  = (Ok response, s1) ->
  dispatch
  = match _after_method self request s1 with
    | (Ok _, s2) => (Ok response, s2)
    | (Raise e', s2) => (Raise e', s2)
    end
  /\ exists bodies body' n,
       List.length bodies = List.length (_get_before_methods self)
       /\ calls (snd dispatch)
          = calls s ++ before_calls 0 request bodies
              ++ [CallVerb func_name request body'] ++ after_calls n request.
Proof.
  intros func_name s0 dispatch Hget Hok.
  assert (Hd : dispatch
               = match _after_method self request s1 with
                 | (Ok _, s2) => (Ok response, s2)
                 | (Raise e', s2) => (Raise e', s2)
                 end).
  { unfold dispatch. rewrite (method_unfold reg self request body s func Hget).
    unfold try_finally, try_except. fold func_name s0. rewrite Hok. done. }
  split; [exact Hd|].
  unfold bind in Hok.
  destruct (before_loop_trace (_get_before_methods self) 0%nat request body s0)
    as (bodies & Hb & _ & _ & Hlen).
  fold (_before_method self request body s0) in Hb, Hlen.
  destruct (_before_method self request body s0) as [[body'|e] sb]; [|done].
  simpl in Hb, Hlen.
  pose proof (invoke_calls (CallVerb func_name request body') (func request body') sb) as Hi.
  rewrite Hok in Hi. simpl in Hi.
  destruct (after_method_trace self request s1) as (n & _ & Ha & _).
  exists bodies, body', n. split; [done|].
  rewrite Hd.
  replace (calls s ++ before_calls 0 request bodies
             ++ [CallVerb func_name request body'] ++ after_calls n request)
    with (calls s1 ++ after_calls n request)
    by (rewrite Hi, Hb, <- !app_assoc; done).
  rewrite <- Ha.
  by destruct (_after_method self request s1) as [[[]|e'] s2].
Qed.

(** X10. An exception that is not an instance of [Exception] is not
    handled: the registry is not consulted, the after-hooks run, and the
    exception leaves the dispatch unless an after-hook raises another. *)
Theorem non_Exception_propagates reg self request body s func e s1 :
  let func_name := ("method_" ++ lower (Request.method request))%string in
  let s0 := mkState (set_request_id (world s)) (calls s) in
  PyDict.get func_name (methods self) = Some func ->
  bind (_before_method self request body)
       (fun body' => invoke (CallVerb func_name request body') (func request body')) s0
  = (Raise e, s1) ->
  issubclass (exc_class e) Exception = false ->
  _method set_request_id get_request_id HTTPStatus_phrase reg self request body s
  = match _after_method self request s1 with
    | (Ok _, s2) => (Raise e, s2)
    | (Raise e', s2) => (Raise e', s2)
    end.
Proof.
  intros func_name s0 Hget Hraise Hnot.
  rewrite (method_unfold reg self request body s func Hget).
  unfold try_finally, try_except. fold func_name s0. rewrite Hraise, Hnot. done.
Qed.

Lemma get_stamp_request_id (headers : option pydict) (w : W) (key : string) :
  PyDict.get key (stamp_request_id get_request_id headers w)
  = if decide (key = "x-cross-request-id") then Some (get_request_id w)
    else match headers with
         | Some h => PyDict.get key h
         | None => None
         end.
Proof.
  unfold stamp_request_id. rewrite PyDictFacts.get_set.
  destruct (decide (key = "x-cross-request-id")); [done|].
  by destruct headers as [[|kv rest]|].
Qed.

(** X12. Every response built by [make_response_json],
    [make_response_text] or [make_response_raw] carries the current
    request id under [x-cross-request-id], also when the caller passed a
    header of that name, and the caller's other headers as they were. *)
Theorem responses_carry_request_id (headers : option pydict) (w : W) :
  let stamped (response : Response) :=
    forall key,
      PyDict.get key (response_headers response)
      = if decide (key = "x-cross-request-id") then Some (get_request_id w)
        else match headers with
             | Some h => PyDict.get key h
             | None => None
             end in
  (forall code message data error_code response,
     fst (make_response_json get_request_id HTTPStatus_phrase (Cls := Cls)
            code message data error_code headers w) = Ok response ->
     stamped response)
  /\ (forall text code content_type response,
        fst (make_response_text get_request_id (Cls := Cls)
               text code headers content_type w) = Ok response ->
        stamped response)
  /\ (forall raw_str code content_type response,
        fst (make_response_raw get_request_id (Cls := Cls)
               raw_str code headers content_type w) = Ok response ->
        stamped response).
Proof.
  intros stamped. unfold stamped. split_and!.
  - intros code message data error_code response Hr key.
    unfold make_response_json in Hr.
    destruct data; simpl in Hr;
      try (injection Hr as <-; simpl; apply get_stamp_request_id).
    destruct message; simpl in Hr;
      try (injection Hr as <-; simpl; apply get_stamp_request_id).
    destruct (HTTPStatus_phrase code); simpl in Hr; [|done].
    injection Hr as <-. simpl. apply get_stamp_request_id.
  - intros text code content_type response [= <-] key. simpl.
    apply get_stamp_request_id.
  - intros raw_str code content_type response [= <-] key. simpl.
    apply get_stamp_request_id.
Qed.

(** X13. A resolver whose result does not unpack into exactly four values
    yields no response: [_handle_method_exceptions] raises [TypeError] for
    a result that is not iterable and [ValueError] for one with fewer or
    more than four elements, after the effects of the resolver. *)
Theorem resolver_result_must_unpack reg e s handler v w' :
  get_exception_handler reg (ExcInstance e) = Some handler ->
  handler e (world s) = (Ok v, w') ->
  let r := _handle_method_exceptions get_request_id HTTPStatus_phrase reg e s in
  (py_iter v = None ->
   exists msg, r = (Raise (mkException TypeError msg None), mkState w' (calls s)))
  /\ (forall xs, py_iter v = Some xs -> List.length xs <> 4%nat ->
      exists msg, r = (Raise (mkException ValueError msg None), mkState w' (calls s))).
Proof.
  intros Hres Hrun r. unfold r, _handle_method_exceptions. rewrite Hres.
  unfold bind, run, lift. rewrite Hrun. unfold unpack4. split.
  - intros ->. by eexists.
  - intros xs -> Hlen.
    destruct xs as [|a [|b [|c [|d [|x xs]]]]]; simpl in *; try done; by eexists.
Qed.

(** X14. A resolver that returns [(code, error_code, message, data)]
    decides the response, as long as the body can be serialised: with
    data, the data is the body and [code] the status; without data but
    with a message, the body is [{code: error_code, message: message}],
    where [code] stands in for an [error_code] that is [None], and the
    status is still [code]. *)
Theorem resolver_decides_response reg e s handler code error_code message data w' :
  get_exception_handler reg (ExcInstance e) = Some handler ->
  handler e (world s) = (Ok (PyTuple [code; error_code; message; data]), w') ->
  let r := fst (_handle_method_exceptions get_request_id HTTPStatus_phrase reg e s) in
  let headers := [("x-cross-request-id", get_request_id w')] in
  let synthesized :=
    PyDictV [("code", match error_code with
                      | PyNone => code
                      | _ => error_code
                      end);
             ("message", message)] in
  (data <> PyNone -> json_serialisable data = true ->
   r = Ok (JsonResponse data code headers))
  /\ (data = PyNone -> message <> PyNone -> json_serialisable synthesized = true ->
      r = Ok (JsonResponse synthesized code headers)).
Proof.
  intros Hres Hrun r headers synthesized.
  unfold r, _handle_method_exceptions. rewrite Hres.
  unfold bind, run, lift. rewrite Hrun. simpl. unfold make_response_json. split.
  - intros Hdata _. by destruct data.
  - intros -> Hmsg _. by destruct message.
Qed.

(** X15. With the registry as the module leaves it, an instance of
    [SanicException] or of a subclass (such as [RoutingErrorException])
    that carries a status code and is raised by a before-hook or the verb
    handler makes the dispatch raise [ValueError] once the after-hooks
    have run: no error response is produced. *)
Theorem sanic_exception_breaks_dispatch self request body s func e s1 status_code :
  let func_name := ("method_" ++ lower (Request.method request))%string in
  let s0 := mkState (set_request_id (world s)) (calls s) in
  PyDict.get func_name (methods self) = Some func ->
  bind (_before_method self request body)
       (fun body' => invoke (CallVerb func_name request body') (func request body')) s0
  = (Raise e, s1) ->
  issubclass (exc_class e) Exception = true ->
  issubclass (exc_class e) SanicException = true ->
  exc_status_code e = Some status_code ->
  _method set_request_id get_request_id HTTPStatus_phrase initial_handlers
    self request body s
  = match _after_method self request s1 with
    | (Ok _, s2) =>
        (Raise (mkException ValueError
                  "not enough values to unpack (expected 4, got 3)" None), s2)
    | (Raise e', s2) => (Raise e', s2)
    end.
Proof.
  intros func_name s0 Hget Hraise Hexc Hsanic Hcode.
  rewrite (method_unfold initial_handlers self request body s func Hget).
  unfold try_finally, try_except. fold func_name s0. rewrite Hraise, Hexc.
  unfold _handle_method_exceptions.
  rewrite (initial_handlers_resolve e Hsanic).
  unfold bind, run, lift, _sanic_exceptions. rewrite Hcode. simpl.
  by destruct s1.
Qed.

Lemma dispatch_first_call reg self request body s func :
  let func_name := ("method_" ++ lower (Request.method request))%string in
  PyDict.get func_name (methods self) = Some func ->
  exists rest,
    calls (snd (_method set_request_id get_request_id HTTPStatus_phrase
                  reg self request body s))
    = calls s
      ++ match _get_before_methods self with
         | [] => CallVerb func_name request body
         | _ :: _ => CallBefore 0 request body
         end :: rest.
Proof.
  intros func_name Hget.
  rewrite (method_unfold reg self request body s func Hget). fold func_name.
  set (s0 := mkState (set_request_id (world s)) (calls s)).
  set (protected := try_except _ _ _).
  assert (Hp : exists rest,
            calls (snd (protected s0))
            = calls s ++ match _get_before_methods self with
                         | [] => CallVerb func_name request body
                         | _ :: _ => CallBefore 0 request body
                         end :: rest).
  { unfold protected, try_except, bind.
    destruct (before_loop_trace (_get_before_methods self) 0%nat request body s0)
      as (bodies & Hb & _ & Hhead & Hres).
    fold (_before_method self request body s0) in Hb, Hres.
    destruct (_before_method self request body s0) as [[body'|e] sb] eqn:Hbm;
      simpl in Hb, Hres.
    - pose proof (invoke_calls (CallVerb func_name request body') (func request body') sb)
        as Hi.
      assert (Hcalls : calls (snd (match invoke (CallVerb func_name request body')
                                           (func request body') sb with
                                   | (Ok a, s1) => (Ok a, s1)
                                   | (Raise e, s1) =>
                                       if issubclass (exc_class e) Exception
                                       then _handle_method_exceptions get_request_id
                                              HTTPStatus_phrase reg e s1
                                       else (Raise e, s1)
                                   end))
                       = calls sb ++ [CallVerb func_name request body']).
      { destruct (invoke _ _ sb) as [[resp|e] sv]; simpl in Hi; [done|].
        destruct (issubclass (exc_class e) Exception); [|done].
        by rewrite handle_method_exceptions_calls. }
      rewrite Hcalls, Hb. unfold _before_method in Hbm.
      destruct (_get_before_methods self) as [|hook hooks] eqn:Hhooks.
      + simpl in Hbm. injection Hbm as <- <-.
        destruct bodies; [|simpl in Hres; lia]. simpl. rewrite app_nil_r.
        by exists [].
      + destruct bodies as [|b bodies]; [simpl in Hres; lia|].
        specialize (Hhead ltac:(done)). injection Hhead as ->. simpl.
        rewrite <- app_assoc. simpl. by eexists.
    - assert (Hcalls : calls (snd (if issubclass (exc_class e) Exception
                                   then _handle_method_exceptions get_request_id
                                          HTTPStatus_phrase reg e sb
                                   else (Raise e, sb)))
                       = calls sb).
      { destruct (issubclass (exc_class e) Exception); [|done].
        by rewrite handle_method_exceptions_calls. }
      rewrite Hcalls, Hb. unfold _before_method in Hbm.
      destruct (_get_before_methods self) as [|hook hooks] eqn:Hhooks.
      + simpl in Hbm. discriminate Hbm.
      + destruct bodies as [|b bodies]; [simpl in Hres; lia|].
        specialize (Hhead ltac:(done)). injection Hhead as ->. simpl.
        by eexists. }
  destruct Hp as (rest & Hp).
  destruct (after_method_trace self request (snd (protected s0))) as (n & _ & Ha & _).
  exists (rest ++ after_calls n request).
  unfold try_finally. destruct (protected s0) as [r sp]. simpl in *.
  rewrite app_comm_cons, app_assoc, <- Hp, <- Ha.
  by destruct (_after_method self request sp) as [[[]|e'] s2].
Qed.

(** X16. [handle] passes on the aggregated body with ['auth'] set to its
    [auth] argument: an [auth] key that came with the request (path
    parameter, JSON body, query, form or header) is overwritten, every
    other key is kept, and this is the body that the first before-hook,
    or the verb handler when there is no before-hook, receives. *)
Theorem handle_sets_auth reg self request (auth : pyval) s func agg :
  let func_name := ("method_" ++ lower (Request.method request))%string in
  let body := PyDict.set "auth" auth agg in
  let r := handle set_request_id get_request_id HTTPStatus_phrase
             reg self request auth s in
  aggregate_body (Cls := Cls) request = Ok agg ->
  PyDict.get func_name (methods self) = Some func ->
  PyDict.get "auth" body = Some auth
  /\ (forall key, key <> "auth" -> PyDict.get key body = PyDict.get key agg)
  /\ exists rest,
       calls (snd r)
       = calls s
         ++ match _get_before_methods self with
            | [] => CallVerb func_name request body
            | _ :: _ => CallBefore 0 request body
            end :: rest.
Proof.
  intros func_name body r Hagg Hget. split_and!.
  - apply PyDictFacts.get_set_eq.
  - intros key Hne. apply PyDictFacts.get_set_ne. congruence.
  - unfold r, handle, bind, lift. rewrite Hagg.
    by apply (dispatch_first_call reg self request body s func).
Qed.

(** X17. For each of the nine verbs of the base class, in any letter
    case, the base endpoint answers status 500 with the message
    ["<METHOD> Not Impl"], where [<METHOD>] is the request method as it was
    sent; the verb handler is the only call. *)
Theorem base_verbs_not_implemented reg request body s :
  lower (Request.method request) ∈ base_verbs ->
  _method set_request_id get_request_id HTTPStatus_phrase reg
    (SanicEndpoint get_request_id HTTPStatus_phrase) request body s
  = (Ok (JsonResponse
           (PyDictV [("code", PyInt 500);
                     ("message", PyStr (Request.method request ++ " Not Impl"))])
           (PyInt 500)
           [("x-cross-request-id", get_request_id (set_request_id (world s)))]),
     mkState (set_request_id (world s))
       (calls s ++ [CallVerb ("method_" ++ lower (Request.method request))%string
                      request body])).
Proof.
  intros Hin.
  rewrite (method_unfold reg _ request body s
             (method_not_impl get_request_id HTTPStatus_phrase)).
  - reflexivity.
  - unfold base_verbs in Hin.
    repeat (apply elem_of_cons in Hin as [->|Hin]; [reflexivity|]).
    by apply elem_of_nil in Hin.
Qed.

(** X18. The health endpoint answers every GET, in any letter case, with
    the raw body [Health] and status 200, and answers the eight other
    verbs like the base class. *)
Theorem health_endpoint_responses reg request body s :
  let dispatch :=
    _method set_request_id get_request_id HTTPStatus_phrase reg
      (HealthEndpoint get_request_id HTTPStatus_phrase) request body s in
  let headers := [("x-cross-request-id", get_request_id (set_request_id (world s)))] in
  (lower (Request.method request) = "get" ->
   fst dispatch
   = Ok (RawResponse (list_ascii_of_string "Health") (PyInt 200) headers
           "application/octet-stream"))
  /\ (lower (Request.method request) ∈ base_verbs ->
      lower (Request.method request) <> "get" ->
      fst dispatch
      = Ok (JsonResponse
              (PyDictV [("code", PyInt 500);
                        ("message", PyStr (Request.method request ++ " Not Impl"))])
              (PyInt 500) headers)).
Proof.
  intros dispatch headers. split.
  - intros Hget. unfold dispatch.
    rewrite (method_unfold reg _ request body s
               (fun request body =>
                  make_response_raw get_request_id "Health" (PyInt 200) None
                    "application/octet-stream")).
    + reflexivity.
    + rewrite Hget. reflexivity.
  - intros Hin Hne. unfold dispatch.
    rewrite (method_unfold reg _ request body s
               (method_not_impl get_request_id HTTPStatus_phrase)).
    + reflexivity.
    + unfold base_verbs in Hin.
      apply elem_of_cons in Hin as [Heq|Hin]; [done|].
      repeat (apply elem_of_cons in Hin as [->|Hin]; [reflexivity|]).
      by apply elem_of_nil in Hin.
Qed.
End DispatchMore.

Section AggregationKeys.
Context {Cls : Type} `{PyClasses Cls}.
Implicit Types (params args fs files : pydict) (key : string) (request : Request.t).

Lemma keys_set_new key (v : pyval) (d : pydict) :
  key ∉ PyDict.keys d -> PyDict.keys (PyDict.set key v d) = PyDict.keys d ++ [key].
Proof.
  intros Hnin. rewrite PyDictFacts.keys_set.
  destruct (PyDict.contains key d) eqn:Hc; [|done].
  by apply PyDictFacts.contains_keys in Hc.
Qed.

Lemma fresh_keys_step (k : string) (ks seen : list string) :
  NoDup (k :: ks) ->
  (forall key, key ∈ k :: ks -> key ∉ seen) ->
  NoDup ks /\ (forall key, key ∈ ks -> key ∉ seen ++ [k]).
Proof.
  intros Hnd Hfresh. apply NoDup_cons in Hnd as [Hk Hnd]. split; [done|].
  intros key Hin Hin'. apply elem_of_app in Hin' as [Hin'|Hin'].
  - by apply (Hfresh key); [right|].
  - apply list_elem_of_singleton in Hin' as ->. done.
Qed.

Lemma params_loop_keys params (ks : list string) args result :
  params_loop (Cls := Cls) params ks args = Ok result ->
  NoDup ks -> (forall key, key ∈ ks -> key ∉ PyDict.keys args) ->
  PyDict.keys result = PyDict.keys args ++ ks.
Proof.
  revert args. induction ks as [|k ks IH]; intros args; simpl.
  - intros [= ->] _ _. by rewrite app_nil_r.
  - destruct (getitem k params) as [value|e]; simpl; [|done].
    intros Hrun Hnd Hfresh.
    destruct (fresh_keys_step k ks (PyDict.keys args) Hnd Hfresh) as [Hnd' Hfresh'].
    rewrite (IH _ Hrun Hnd').
    + rewrite keys_set_new by (apply Hfresh; left). by rewrite <- app_assoc.
    + rewrite keys_set_new by (apply Hfresh; left). done.
Qed.

Lemma files_loop_keys fs (ks : list string) files result :
  files_loop (Cls := Cls) fs ks files = Ok result ->
  NoDup ks -> (forall key, key ∈ ks -> key ∉ PyDict.keys files) ->
  PyDict.keys result = PyDict.keys files ++ ks.
Proof.
  revert files. induction ks as [|k ks IH]; intros files; simpl.
  - intros [= ->] _ _. by rewrite app_nil_r.
  - destruct (getitem k fs) as [value|e]; simpl; [|done].
    intros Hrun Hnd Hfresh.
    destruct (fresh_keys_step k ks (PyDict.keys files) Hnd Hfresh) as [Hnd' Hfresh'].
    assert (Hstep : forall out,
      files_loop (Cls := Cls) fs ks (PyDict.set k out files) = Ok result ->
      PyDict.keys result = PyDict.keys files ++ k :: ks).
    { intros out Hout. rewrite (IH _ Hout Hnd').
      - rewrite keys_set_new by (apply Hfresh; left). by rewrite <- app_assoc.
      - rewrite keys_set_new by (apply Hfresh; left). done. }
    destruct value as [| | | |items| | |]; try (by eapply Hstep).
    destruct (project_files items) as [ds|e]; simpl in Hrun; [|done].
    by eapply Hstep.
Qed.

(** X19. The scalar-collapsing step keeps the keys of a mapping with
    unique keys, in their order: no key is lost, added or moved. *)
Theorem collapsing_keeps_keys params :
  PyDict.wf params ->
  exists args,
    params_from_dictparams (Cls := Cls) params = Ok args
    /\ PyDict.keys args = PyDict.keys params
    /\ List.length args = List.length params.
Proof.
  intros Hwf.
  destruct (params_from_dictparams_get (Cls := Cls) params) as (args & Hrun & _).
  exists args. split; [done|].
  assert (Hkeys : PyDict.keys args = PyDict.keys params).
  { apply (params_loop_keys params (PyDict.keys params) [] args Hrun Hwf).
    intros key _ Hin. by apply elem_of_nil in Hin. }
  split; [done|].
  apply (f_equal (@List.length string)) in Hkeys.
  unfold PyDict.keys in Hkeys. by rewrite !length_map in Hkeys.
Qed.

(** X20. The files step keeps the keys of [request.files], in their
    order, when they are unique and the lists hold file items. *)
Theorem files_step_keeps_keys request fs :
  Request.files request = Some fs -> PyDict.wf fs -> lists_hold_files fs ->
  exists files,
    import_body_files (Cls := Cls) request = Ok files
    /\ PyDict.keys files = PyDict.keys fs.
Proof.
  intros Hfs Hwf Htyped. unfold import_body_files. rewrite Hfs.
  destruct fs as [|kv fs']; [by exists []|].
  simpl (0 <? _)%nat. cbv iota.
  destruct (files_loop_spec (Cls := Cls) (kv :: fs') (PyDict.keys (kv :: fs')) [])
    as (files & Hrun & _); [done|done|].
  exists files. split; [done|].
  apply (files_loop_keys (kv :: fs') (PyDict.keys (kv :: fs')) [] files Hrun Hwf).
  intros key _ Hin. by apply elem_of_nil in Hin.
Qed.
End AggregationKeys.

(** * Instances of the further properties *)

(** Unique keys of a mapping written out in full. *)
Ltac solve_wf :=
  unfold option_wf, PyDict.wf; simpl;
  repeat (apply NoDup_cons_2;
          [ let Hin := fresh "Hin" in
            intros Hin;
            repeat (apply elem_of_cons in Hin as [Hin|Hin]; [discriminate Hin|]);
            by apply elem_of_nil in Hin
          | ]);
  apply NoDup_nil_2.

Lemma aggregation_precedence_witness :
  request_wf demo_spoof_request
  /\ exists body,
       aggregate_body (Cls := pyclass) demo_spoof_request = Ok body
       /\ PyDict.get "X-Trace" body = Some (PyStr "abc")
       /\ PyDict.get "Content-Type" body = None.
Proof.
  assert (Hwf : request_wf demo_spoof_request).
  { split_and!; [done| |done|intros fs [=]].
    solve_wf. }
  split; [exact Hwf|].
  destruct (aggregation_precedence (Cls := pyclass) demo_spoof_request Hwf)
    as (a & f & fm & h & body & Ha & Hf & Hfm & Hh & Hbody & Hget).
  exists body. split; [exact Hbody|].
  injection Ha as <-. injection Hf as <-. injection Hfm as <-. injection Hh as <-.
  split; rewrite Hget; reflexivity.
Defined.

Lemma before_hook_exception_skips_handler_witness :
  let dispatch :=
    _method demo_set_request_id demo_get_request_id demo_HTTPStatus_phrase
      initial_handlers demo_failing_before_endpoint (demo_request "GET") [] demo_state in
  PyDict.get "method_get" (methods demo_failing_before_endpoint)
  = Some (method_not_impl demo_get_request_id demo_HTTPStatus_phrase)
  /\ exists bodies n,
       calls (snd dispatch)
       = before_calls 0 (demo_request "GET") bodies ++ after_calls n (demo_request "GET").
Proof.
  intros dispatch. split; [reflexivity|].
  destruct (before_hook_exception_skips_handler demo_set_request_id
              demo_get_request_id demo_HTTPStatus_phrase initial_handlers
              demo_failing_before_endpoint (demo_request "GET") [] demo_state
              (method_not_impl demo_get_request_id demo_HTTPStatus_phrase)
              (mkException C_ValueError "denied" None)
              (mkState (mkWorld 1 ["before0"; "before1"])
                 [CallBefore 0 (demo_request "GET") [];
                  CallBefore 1 (demo_request "GET") []]))
    as [_ (bodies & n & Hcalls)]; [reflexivity|reflexivity|].
  exists bodies, n. exact Hcalls.
Defined.

Lemma success_ignores_registry_witness :
  PyDict.get "method_get" (methods demo_endpoint)
  = Some (method_not_impl demo_get_request_id demo_HTTPStatus_phrase)
  /\ fst (_method demo_set_request_id demo_get_request_id demo_HTTPStatus_phrase
            [] demo_endpoint (demo_request "GET") [] demo_state)
     = Ok (JsonResponse
             (PyDictV [("code", PyInt 500); ("message", PyStr "GET Not Impl")])
             (PyInt 500) [("x-cross-request-id", PyStr "req-1")]).
Proof.
  split; [reflexivity|].
  destruct (success_ignores_registry demo_set_request_id demo_get_request_id
              demo_HTTPStatus_phrase [] demo_endpoint (demo_request "GET") []
              demo_state
              (method_not_impl demo_get_request_id demo_HTTPStatus_phrase)
              (JsonResponse
                 (PyDictV [("code", PyInt 500); ("message", PyStr "GET Not Impl")])
                 (PyInt 500) [("x-cross-request-id", PyStr "req-1")])
              (mkState (mkWorld 1 ["before0"; "before1"])
                 [CallBefore 0 (demo_request "GET") [];
                  CallBefore 1 (demo_request "GET") [];
                  CallVerb "method_get" (demo_request "GET") []]))
    as [Hd _]; [reflexivity|reflexivity|].
  rewrite Hd. reflexivity.
Defined.

Lemma non_Exception_propagates_witness :
  issubclass C_KeyboardInterrupt C_Exception = false
  /\ fst (_method demo_set_request_id demo_get_request_id demo_HTTPStatus_phrase
            initial_handlers demo_interrupt_endpoint (demo_request "GET") [] demo_state)
     = Raise (mkException C_KeyboardInterrupt "" None).
Proof.
  split; [reflexivity|].
  rewrite (non_Exception_propagates demo_set_request_id demo_get_request_id
             demo_HTTPStatus_phrase initial_handlers demo_interrupt_endpoint
             (demo_request "GET") [] demo_state
             (fun request body =>
                note_raise "get" (mkException C_KeyboardInterrupt "" None))
             (mkException C_KeyboardInterrupt "" None)
             (mkState (mkWorld 1 ["before0"; "before1"; "get"])
                [CallBefore 0 (demo_request "GET") [];
                 CallBefore 1 (demo_request "GET") [];
                 CallVerb "method_get" (demo_request "GET") []]));
    reflexivity.
Defined.

Lemma resolver_result_must_unpack_witness :
  let reg := register_exception_handler [C_ValueError] resolverShort_demo
               initial_handlers in
  let e := mkException C_ValueError "boom" None in
  get_exception_handler reg (ExcInstance e) = Some resolverShort_demo
  /\ exists msg,
       _handle_method_exceptions demo_get_request_id demo_HTTPStatus_phrase
         reg e demo_state
       = (Raise (mkException C_ValueError msg None), demo_state).
Proof.
  intros reg e. split; [reflexivity|].
  destruct (resolver_result_must_unpack demo_get_request_id demo_HTTPStatus_phrase
              reg e demo_state resolverShort_demo
              (PyTuple [PyInt 400; PyStr "short"]) (mkWorld 0 []))
    as [_ Hlen]; [reflexivity|reflexivity|].
  apply (Hlen [PyInt 400; PyStr "short"]); [reflexivity|].
  simpl. lia.
Defined.

Lemma resolver_decides_response_witness :
  let reg := register_exception_handler [C_ValueError] resolverBase_demo
               initial_handlers in
  let e := mkException C_ValueError "boom" None in
  get_exception_handler reg (ExcInstance e) = Some resolverBase_demo
  /\ fst (_handle_method_exceptions demo_get_request_id demo_HTTPStatus_phrase
            reg e demo_state)
     = Ok (JsonResponse
             (PyDictV [("code", PyInt 1); ("message", PyStr "base")])
             (PyInt 400) [("x-cross-request-id", PyStr "req-0")]).
Proof.
  intros reg e. split; [reflexivity|].
  destruct (resolver_decides_response demo_get_request_id demo_HTTPStatus_phrase
              reg e demo_state resolverBase_demo
              (PyInt 400) (PyInt 1) (PyStr "base") PyNone (mkWorld 0 []))
    as [_ Hbody]; [reflexivity|reflexivity|].
  apply Hbody; [reflexivity|discriminate|reflexivity].
Defined.

Lemma sanic_exception_breaks_dispatch_witness :
  issubclass (exc_class (new_RoutingErrorException (Cls := pyclass) "no route"))
    C_SanicException = true
  /\ fst (_method demo_set_request_id demo_get_request_id demo_HTTPStatus_phrase
            initial_handlers demo_routing_error_endpoint (demo_request "GET") []
            demo_state)
     = Raise (mkException C_ValueError
                "not enough values to unpack (expected 4, got 3)" None).
Proof.
  split; [reflexivity|].
  rewrite (sanic_exception_breaks_dispatch demo_set_request_id demo_get_request_id
             demo_HTTPStatus_phrase demo_routing_error_endpoint
             (demo_request "GET") [] demo_state
             (fun request body =>
                note_raise "get" (new_RoutingErrorException "no route"))
             (new_RoutingErrorException "no route")
             (mkState (mkWorld 1 ["before0"; "before1"; "get"])
                [CallBefore 0 (demo_request "GET") [];
                 CallBefore 1 (demo_request "GET") [];
                 CallVerb "method_get" (demo_request "GET") []])
             (PyInt 500));
    reflexivity.
Defined.

Lemma handle_sets_auth_witness :
  aggregate_body (Cls := pyclass) demo_spoof_request
  = Ok [("auth", PyStr "root"); ("id", PyStr "7"); ("X-Trace", PyStr "abc")]
  /\ exists rest,
       calls (snd (handle demo_set_request_id demo_get_request_id
                     demo_HTTPStatus_phrase initial_handlers demo_endpoint
                     demo_spoof_request PyNone demo_state))
       = CallBefore 0 demo_spoof_request
           [("auth", PyNone); ("id", PyStr "7"); ("X-Trace", PyStr "abc")] :: rest.
Proof.
  split; [reflexivity|].
  destruct (handle_sets_auth demo_set_request_id demo_get_request_id
              demo_HTTPStatus_phrase initial_handlers demo_endpoint
              demo_spoof_request PyNone demo_state
              (method_not_impl demo_get_request_id demo_HTTPStatus_phrase)
              [("auth", PyStr "root"); ("id", PyStr "7"); ("X-Trace", PyStr "abc")])
    as (_ & _ & rest & Hcalls); [reflexivity|reflexivity|].
  exists rest. exact Hcalls.
Defined.

Lemma base_verbs_not_implemented_witness :
  lower "DeLeTe" ∈ base_verbs
  /\ fst (_method demo_set_request_id demo_get_request_id demo_HTTPStatus_phrase
            initial_handlers
            (SanicEndpoint demo_get_request_id demo_HTTPStatus_phrase)
            (demo_request "DeLeTe") [] demo_state)
     = Ok (JsonResponse
             (PyDictV [("code", PyInt 500); ("message", PyStr "DeLeTe Not Impl")])
             (PyInt 500) [("x-cross-request-id", PyStr "req-1")]).
Proof.
  assert (Hin : lower "DeLeTe" ∈ base_verbs).
  { unfold base_verbs. simpl. do 4 right. left. }
  split; [exact Hin|].
  rewrite (base_verbs_not_implemented demo_set_request_id demo_get_request_id
             demo_HTTPStatus_phrase initial_handlers (demo_request "DeLeTe") []
             demo_state Hin).
  reflexivity.
Defined.

Lemma collapsing_keeps_keys_witness :
  PyDict.wf [("tag", PyList [PyStr "x"]); ("n", PyList [])]
  /\ exists args,
       params_from_dictparams (Cls := pyclass)
         [("tag", PyList [PyStr "x"]); ("n", PyList [])] = Ok args
       /\ PyDict.keys args = ["tag"; "n"].
Proof.
  assert (Hwf : PyDict.wf [("tag", PyList [PyStr "x"]); ("n", PyList [])]).
  { solve_wf. }
  split; [exact Hwf|].
  destruct (collapsing_keeps_keys (Cls := pyclass) _ Hwf) as (args & Hrun & Hkeys & _).
  exists args. split; [exact Hrun|exact Hkeys].
Defined.

Lemma files_step_keeps_keys_witness :
  PyDict.wf demo_files
  /\ exists files,
       import_body_files (Cls := pyclass) demo_upload_request = Ok files
       /\ PyDict.keys files = ["docs"; "avatar"].
Proof.
  assert (Hwf : PyDict.wf demo_files).
  { solve_wf. }
  assert (Htyped : lists_hold_files demo_files).
  { intros key items Hg. unfold demo_files in Hg. simpl in Hg.
    destruct (decide (key = "docs")).
    - injection Hg as <-.
      repeat constructor; eexists _, _, _; reflexivity.
    - destruct (decide (key = "avatar")); discriminate Hg. }
  split; [exact Hwf|].
  destruct (files_step_keeps_keys (Cls := pyclass) demo_upload_request demo_files)
    as (files & Hrun & Hkeys); [reflexivity|exact Hwf|exact Htyped|].
  exists files. split; [exact Hrun|exact Hkeys].
Defined.

Section RegistrySound.
Context {Cls : Type} `{PyClasses Cls} {Handler : Type}.
Implicit Types (reg : registry Cls Handler) (e : PyException Cls).

(** X21. A resolver returned for an exception instance is always one
    that the registry holds for the class of the instance or for one of
    its ancestors: resolvers of unrelated classes are never returned. *)
Theorem resolution_is_registered reg e (resolver : Handler) :
  get_exception_handler reg (ExcInstance e) = Some resolver ->
  exists key,
    (key, resolver) ∈ reg /\ issubclass (exc_class e) key = true.
Proof.
  rewrite get_exception_handler_instance.
  destruct (PyDict.get (exc_class e) reg) as [f|] eqn:Hg.
  - intros [= ->]. exists (exc_class e). split.
    + by apply PyDictFacts.get_Some_elem.
    + apply issubclass_refl.
  - unfold first_match.
    destruct (List.find _ reg) as [[key f]|] eqn:Hfind; simpl; [|done].
    intros [= ->]. apply find_some in Hfind as [Hin Hsub].
    exists key. split; [by apply list_elem_of_In|done].
Qed.
End RegistrySound.

Lemma resolution_is_registered_witness :
  get_exception_handler (@initial_handlers pyclass _ demo_world)
    (ExcInstance (new_RoutingErrorException "no route"))
  = Some _sanic_exceptions
  /\ exists key,
       (key, @_sanic_exceptions pyclass _ demo_world) ∈ @initial_handlers pyclass _ demo_world
       /\ issubclass C_RoutingErrorException key = true.
Proof.
  split; [reflexivity|].
  destruct (resolution_is_registered (@initial_handlers pyclass _ demo_world)
              (new_RoutingErrorException "no route")
              (@_sanic_exceptions pyclass _ demo_world))
    as (key & Hin & Hsub); [reflexivity|].
  exists key. split; [exact Hin|exact Hsub].
Defined.

(** * The dispatcher with extra arguments *)

Section DispatchArgs.
Context {Cls : Type} `{PyClasses Cls} {W : Type}.
Context (set_request_id : W -> W) (get_request_id : W -> pyval).
Context (HTTPStatus_phrase : pyval -> option string).
Implicit Types (s : state W) (request : Request.t) (body kwargs : pydict).
Implicit Types (args : list pyval) (e : PyException Cls).
Implicit Types (reg : registry Cls (@ExceptionHandler Cls W)).
Implicit Types (self : @SanicEndpointArgs Cls W).


(** [hooks_applied] leaves no choice: the hooks and the starting world
    decide the outcome and the final world. *)
Lemma hooks_applied_unique (hook_args : list pyarg) kwargs
    (funcs : list (@Callable Cls W unit)) (w : W) r1 w1 r2 w2 :
  hooks_applied hook_args kwargs funcs w r1 w1 ->
  hooks_applied hook_args kwargs funcs w r2 w2 ->
  r1 = r2 /\ w1 = w2.
Proof.
  intros H1. revert r2 w2.
  induction H1 as [w|hook rest w wa r wb Hhook _ IH|hook rest w e wa Hhook];
    intros r2 w2 H2; inversion H2 as [|? ? ? wa' ? ? Hhook' Hrest'|? ? ? e' wa' Hhook'];
    subst.
  - done.
  - apply IH. rewrite Hhook in Hhook'. by injection Hhook' as ->.
  - rewrite Hhook in Hhook'. discriminate Hhook'.
  - rewrite Hhook in Hhook'. discriminate Hhook'.
  - rewrite Hhook in Hhook'. by injection Hhook' as -> ->.
Qed.

End DispatchArgs.



(** ** A call without extra arguments *)

Section WithoutExtras.
Context {Cls : Type} `{PyClasses Cls} {W : Type}.
Context (set_request_id : W -> W) (get_request_id : W -> pyval).
Context (HTTPStatus_phrase : pyval -> option string).
Implicit Types (s : state W) (request : Request.t) (body : pydict).
Implicit Types (reg : registry Cls (@ExceptionHandler Cls W)).
Implicit Types (self : @SanicEndpointObj Cls W) (e : PyException Cls).

Lemma agree_ret {A} (a : A) : agree (Cls := Cls) (W := W) (ret a) (ret a).
Proof. intros s1 s2 Hw. done. Qed.

Lemma agree_lift {A} (r : outcome Cls A) : agree (W := W) (lift r) (lift r).
Proof. intros s1 s2 Hw. done. Qed.

Lemma agree_run {A} (f : @action Cls W A) : agree (run f) (run f).
Proof.
  intros s1 s2 Hw. unfold run. rewrite Hw. by destruct (f (world s2)).
Qed.

Lemma agree_run_invoke {A} (c : call) (f : @action Cls W A) :
  agree (run f) (invoke c f).
Proof.
  intros s1 s2 Hw. unfold invoke, run. simpl. rewrite Hw.
  by destruct (f (world s2)).
Qed.

Lemma agree_bind {A B} (m1 m2 : @M Cls W A) (k1 k2 : A -> @M Cls W B) :
  agree m1 m2 -> (forall a, agree (k1 a) (k2 a)) ->
  agree (bind m1 k1) (bind m2 k2).
Proof.
  intros Hm Hk s1 s2 Hw. unfold bind.
  destruct (Hm s1 s2 Hw) as [Hr Hw'].
  destruct (m1 s1) as [[a|e] s1'], (m2 s2) as [[a'|e'] s2']; simpl in *;
    try discriminate Hr.
  - injection Hr as <-. by apply Hk.
  - by injection Hr as <-.
Qed.

Lemma agree_try_except {A} (m1 m2 : @M Cls W A) (cls : Cls)
    (h1 h2 : PyException Cls -> @M Cls W A) :
  agree m1 m2 -> (forall e, agree (h1 e) (h2 e)) ->
  agree (try_except m1 cls h1) (try_except m2 cls h2).
Proof.
  intros Hm Hh s1 s2 Hw. unfold try_except.
  destruct (Hm s1 s2 Hw) as [Hr Hw'].
  destruct (m1 s1) as [[a|e] s1'], (m2 s2) as [[a'|e'] s2']; simpl in *;
    try discriminate Hr.
  - by injection Hr as <-.
  - injection Hr as <-. destruct (issubclass (exc_class e) cls); [by apply Hh|done].
Qed.

Lemma agree_try_finally {A} (m1 m2 : @M Cls W A) (f1 f2 : @M Cls W unit) :
  agree m1 m2 -> agree f1 f2 -> agree (try_finally m1 f1) (try_finally m2 f2).
Proof.
  intros Hm Hf s1 s2 Hw. unfold try_finally.
  destruct (Hm s1 s2 Hw) as [Hr Hw'].
  destruct (m1 s1) as [r1 s1'], (m2 s2) as [r2 s2']; simpl in *. subst r2.
  destruct (Hf s1' s2' Hw') as [Hfr Hfw].
  destruct (f1 s1') as [[[]|e] t1], (f2 s2') as [[[]|e'] t2]; simpl in *;
    try discriminate Hfr; [done|]. by injection Hfr as <-.
Qed.

Lemma agree_handle_method_exceptions reg e :
  agree (_handle_method_exceptions get_request_id HTTPStatus_phrase reg e)
        (_handle_method_exceptions get_request_id HTTPStatus_phrase reg e).
Proof.
  unfold _handle_method_exceptions.
  destruct (get_exception_handler reg (ExcInstance e)) as [handler|];
    [|apply agree_run].
  apply agree_bind; [apply agree_run|]. intros tuple.
  apply agree_bind; [apply agree_lift|]. intros [[[code ec] msg] data].
  apply agree_run.
Qed.

Lemma agree_before_loop (funcs : list (@BeforeMethod Cls W)) i request body :
  agree (before_loop_args (map before_callable funcs) request body [] [])
        (before_loop i funcs request body).
Proof.
  revert i body. induction funcs as [|func rest IH]; intros i body; simpl.
  - apply agree_ret.
  - apply agree_bind; [apply agree_run_invoke|]. intros body'. apply IH.
Qed.

Lemma agree_after_loop (funcs : list (@AfterMethod Cls W)) i request :
  agree (after_loop_args (map after_callable funcs) request [] [])
        (after_loop i funcs request).
Proof.
  revert i. induction funcs as [|func rest IH]; intros i; simpl.
  - apply agree_ret.
  - apply agree_bind; [apply agree_run_invoke|]. intros _. apply IH.
Qed.

Lemma get_verb_callable (name : string) (d : PyDict.t string (@VerbMethod Cls W)) :
  PyDict.get name (map (fun kv => (fst kv, verb_callable (snd kv))) d)
  = verb_callable <$> PyDict.get name d.
Proof.
  induction d as [|[k v] d IH]; simpl; [done|].
  by destruct (decide (name = k)).
Qed.

(** Without extra arguments, the dispatcher with extra arguments run on
    the hooks and handlers of an endpoint has the outcome of [_method] and
    leaves the same world. *)
Lemma method_args_without_extras reg self request body :
  agree (_method_args set_request_id get_request_id HTTPStatus_phrase
           reg (endpoint_callables self) request body [] [])
        (_method set_request_id get_request_id HTTPStatus_phrase
           reg self request body).
Proof.
  unfold _method_args, _method.
  apply agree_bind; [apply agree_run|]. intros _. simpl.
  rewrite get_verb_callable.
  destruct (PyDict.get _ (methods self)) as [func|]; simpl; [|apply agree_run].
  unfold try_except_finally.
  apply agree_try_finally.
  - apply agree_try_except; [|apply agree_handle_method_exceptions].
    apply agree_bind; [apply agree_before_loop|]. intros body'.
    apply agree_run_invoke.
  - apply agree_after_loop.
Qed.
End WithoutExtras.
